(** * Certifree client glue: auth service, environment check, asset upload,
      reCAPTCHA hook

    A shallow embedding of the TypeScript sources

      - the auth service (checkProfileExists, handleGoogleOAuth,
        handleOAuthCallback, handleEmailLogin, handleEmailSignup,
        handleSignOut, resendVerificationEmail, validateOAuthConfig),
      - config/environment.ts (validateEnvironment, getValidationErrorMessage,
        initializeEnvironment),
      - lib/storage.ts (uploadCertificationAsset),
      - the useRecaptcha hook (executeRecaptcha, the effect that loads the
        script and its handlers),

    and the properties of them that the specification states.

    Modelling conventions.
      - An `async` function is a computation in the monad [Js.M]: it reads the
        history of interactions so far, threads a local state (the browser's
        localStorage for the auth service), emits the interactions it
        performs, and completes by returning a value or by throwing.  `await`
        is sequencing; a rejected promise is a thrown value.
      - The external world (the BaaS client SDK, the clock, grecaptcha) is an
        oracle: each external call is answered by a function of the
        interaction history, so two identical calls may be answered
        differently.  Every theorem quantifies over all oracles.
      - `debug.log / warn / error` come from the logging utility of the
        application, whose source is not among these files.  Its calls are
        taken to return and to touch neither the SDK, localStorage nor the
        document; they are left out, except in the start-up check of the
        environment, whose trace records the call that validateEnvironment
        makes to the logger.
      - A value thrown by an external call is an `Error` carrying a message,
        or some other non-nullish value without a `message` property.  A
        thrown `null` or `undefined`, on which the `err.message` of a catch
        clause would throw in its turn, is outside the model: no statement
        below says that a function never throws.
      - `localStorage` is a total key-value store: `setItem`, `getItem` and
        `removeItem` always succeed; a browser that denies the access to the
        storage is outside the model.
      - A render of the hook is a function of the hook's state; the closure
        `executeRecaptcha` it returns captures the `loaded` of that render. *)

From stdpp Require Import gmap strings list.
From Stdlib Require Import ZArith Decimal DecimalPos.

Local Open Scope string_scope.
Local Open Scope list_scope.

(** ** JavaScript runtime model *)

Module Js.

(** An `Error` object (or an instance of a subclass): only `message` is
    ever read. *)
Record Error := { message : string }.

(** What a `catch (err)` clause can receive: an `Error`, or a value that is
    not one and has no `message`. *)
Inductive thrown : Type :=
| ThrownError (e : Error)
| ThrownOther.

(** `err.message` *)
Definition thrown_message (err : thrown) : option string :=
  match err with
  | ThrownError e => Some (message e)
  | ThrownOther => None
  end.

(** How a call completes. *)
Inductive outcome (A : Type) : Type :=
| Returned (a : A)
| Threw (err : thrown).
Arguments Returned {A} a.
Arguments Threw {A} err.

(** Truthiness of a `string | null | undefined` value. *)
Definition truthy (v : option string) : bool :=
  match v with
  | Some s => negb (String.eqb s "")
  | None => false
  end.

(** `v || fallback` for a `string | null` value and a string fallback. *)
Definition or_else (v : option string) (fallback : string) : string :=
  match v with
  | Some s => if String.eqb s "" then fallback else s
  | None => fallback
  end.

(** `v && f(v)` in a condition. *)
Definition and_then (v : option string) (f : string -> bool) : bool :=
  match v with
  | Some s => if String.eqb s "" then false else f s
  | None => false
  end.

(** `s.startsWith(p)` *)
Fixpoint startsWith (s p : string) : bool :=
  match p with
  | EmptyString => true
  | String c p' =>
      match s with
      | EmptyString => false
      | String d s' => if Ascii.eqb c d then startsWith s' p' else false
      end
  end.

(** `s.includes(p)` *)
Fixpoint includes (s p : string) : bool :=
  startsWith s p ||
  match s with
  | EmptyString => false
  | String _ s' => includes s' p
  end.

Section Monad.
Context {S E : Type}.

(** A computation: given the history of interactions and the current
    state, an outcome, the new state and the interactions performed. *)
Definition M (A : Type) : Type :=
  list E -> S -> outcome A * S * list E.

Definition ret {A} (a : A) : M A :=
  fun _ s => (Returned a, s, []).

Definition throw {A} (err : thrown) : M A :=
  fun _ s => (Threw err, s, []).

Definition bind {A B} (m : M A) (k : A -> M B) : M B :=
  fun h s =>
    match m h s with
    | (Returned a, s1, e1) =>
        match k a (h ++ e1) s1 with
        | (o, s2, e2) => (o, s2, e1 ++ e2)
        end
    | (Threw err, s1, e1) => (Threw err, s1, e1)
    end.

(** `try { m } catch (err) { handler(err) }` *)
Definition try_catch {A} (m : M A) (handler : thrown -> M A) : M A :=
  fun h s =>
    match m h s with
    | (Returned a, s1, e1) => (Returned a, s1, e1)
    | (Threw err, s1, e1) =>
        match handler err (h ++ e1) s1 with
        | (o, s2, e2) => (o, s2, e1 ++ e2)
        end
    end.

(** An interaction [e] with the outside, answered by the oracle
    [answer] from the history before it. *)
Definition external {A} (e : E) (answer : list E -> outcome A) : M A :=
  fun h s => (answer h, s, [e]).

(** A local effect [e] that reads and updates the state. *)
Definition effect {A} (e : E) (f : S -> A * S) : M A :=
  fun _ s => (Returned (f s).1, (f s).2, [e]).

End Monad.

Arguments M : clear implicits.

(** `import.meta.env` as the bundler fills it in. *)
Record ImportMetaEnv := {
  VITE_SUPABASE_URL : option string;
  VITE_SUPABASE_ANON_KEY : option string;
  VITE_FORMSPREE_ENDPOINT : option string;
  VITE_GOOGLE_CLIENT_ID : option string;
  VITE_GOOGLE_CLIENT_SECRET : option string;
  PROD : bool;
  DEV : bool
}.

Definition result {S E A} (r : outcome A * S * list E) : outcome A := r.1.1.
Definition final {S E A} (r : outcome A * S * list E) : S := r.1.2.
Definition emitted {S E A} (r : outcome A * S * list E) : list E := r.2.

End Js.

Import Js.

Notation "'let*' x ':=' m 'in' k" := (bind m (fun x => k))
  (at level 10, x pattern, m at level 100, k at level 200).

(** ** The auth service *)

Module AuthService.

(** *** Data borrowed from the BaaS client *)

Record User := { user_id : string; user_email : option string }.
Record Session := { session_user : User; access_token : string }.

(** `{ data, error }` as every client method returns it; `error` is an
    `AuthError` or a `PostgrestError`, both subclasses of `Error`. *)
Record Response (D : Type) := { data : D; error : option Error }.
Arguments data {D} _.
Arguments error {D} _.

Record SessionData := { session : option Session }.
Record OAuthData := { provider : string; url : option string }.
Record UserSession := { us_user : option User; us_session : option Session }.
Record Profile := { id : string; email : string; full_name : option string }.

Record OAuthOptions := {
  oa_provider : string;
  oa_redirectTo : string;
  oa_queryParams : list (string * string)
}.

Record SignUpOptions := {
  su_email : string;
  su_password : string;
  su_data : list (string * string);
  su_emailRedirectTo : string
}.

Record ResendOptions := {
  rs_type : string;
  rs_email : string;
  rs_emailRedirectTo : string
}.

(** *** Interactions *)

(** Calls to the BaaS client SDK. *)
Inductive sdk_call : Type :=
| ProfilesSelect (columns : string) (email : option string)
    (* supabase.from('profiles').select(columns).eq('email', email).maybeSingle() *)
| SignInWithOAuth (opts : OAuthOptions)
| GetSession
| SignOut
| SignInWithPassword (email password : string)
| SignUp (opts : SignUpOptions)
| Resend (opts : ResendOptions).

(** Accesses to `localStorage`. *)
Inductive storage_access : Type :=
| SetItem (key value : string)
| GetItem (key : string)
| RemoveItem (key : string).

Inductive event : Type :=
| Sdk (c : sdk_call)
| LocalStorage (a : storage_access)
| Timeout (ms : Z).

Definition history := list event.

(** The outside of the auth service. *)
Record World := {
  origin : string;                                  (* window.location.origin *)
  profiles_select : history -> string -> option string ->
                    outcome (Response (option Profile));
  auth_signInWithOAuth : history -> OAuthOptions -> outcome (Response OAuthData);
  auth_getSession : history -> outcome (Response SessionData);
  auth_signOut : history -> outcome (Response unit);
  auth_signInWithPassword : history -> string -> string ->
                            outcome (Response UserSession);
  auth_signUp : history -> SignUpOptions -> outcome (Response UserSession);
  auth_resend : history -> ResendOptions -> outcome (Response unit)
}.

(** `localStorage` *)
Abbreviation LocalStore := (gmap string string).

Definition Async := M LocalStore event.

(** *** Results *)

Inductive AuthMode : Type := login | signup.

Definition AuthMode_string (mode : AuthMode) : string :=
  match mode with
  | login => "login"
  | signup => "signup"
  end.

(** The values the `data?: any` field of a result receives. *)
Inductive AuthData : Type :=
| DataOAuth (d : OAuthData)
| DataSession (s : Session)
| DataUserSession (d : UserSession).

Record AuthResult := {
  success : bool;
  ar_error : option string;
  requiresVerification : option bool;
  ar_data : option AuthData
}.

Record ProfileCheckResult := {
  exists_ : bool;
  profile : option Profile;
  pc_error : option string
}.

(** `{ success: false, error }` *)
Definition failed (err : option string) : AuthResult :=
  {| success := false; ar_error := err;
     requiresVerification := None; ar_data := None |}.

(** `{ success: true, data }` *)
Definition succeeded (d : option AuthData) : AuthResult :=
  {| success := true; ar_error := None;
     requiresVerification := None; ar_data := d |}.

Section Service.
Variable w : World.

Definition localStorage_setItem (key value : string) : Async unit :=
  effect (LocalStorage (SetItem key value))
         (fun st : LocalStore => (tt, <[key := value]> st)).

Definition localStorage_getItem (key : string) : Async (option string) :=
  effect (LocalStorage (GetItem key)) (fun st : LocalStore => (st !! key, st)).

Definition localStorage_removeItem (key : string) : Async unit :=
  effect (LocalStorage (RemoveItem key))
         (fun st : LocalStore => (tt, delete key st)).

(** `await new Promise(resolve => setTimeout(resolve, ms))` *)
Definition sleep (ms : Z) : Async unit :=
  effect (Timeout ms) (fun st : LocalStore => (tt, st)).

Definition sdk {A} (c : sdk_call) (answer : history -> outcome A) : Async A :=
  external (Sdk c) answer.

Definition profile_columns : string := "id, email, full_name".

Definition checkProfileExists (email : option string) : Async ProfileCheckResult :=
  try_catch
    (let* r := sdk (ProfilesSelect profile_columns email)
                   (fun h => profiles_select w h profile_columns email) in
     match error r with
     | Some err =>
         ret {| exists_ := false; profile := None;
                pc_error := Some (message err) |}
     | None =>
         let exists' := bool_decide (is_Some (data r)) in
         ret {| exists_ := exists'; profile := data r; pc_error := None |}
     end)
    (fun err =>
       ret {| exists_ := false; profile := None;
              pc_error := thrown_message err |}).

(** `${window.location.origin}/auth/callback` *)
Definition callback_url : string := origin w ++ "/auth/callback".

(** The argument of `signInWithOAuth`. *)
Definition oauth_options (redirectTo : string) : OAuthOptions :=
  {| oa_provider := "google";
     oa_redirectTo := redirectTo;
     oa_queryParams := [("access_type", "offline"); ("prompt", "consent")] |}.

(** The argument of `signUp`. *)
Definition signUp_options (email password fullName : string) : SignUpOptions :=
  {| su_email := email;
     su_password := password;
     su_data := [("full_name", fullName); ("avatar_url", "")];
     su_emailRedirectTo := callback_url |}.

(** The argument of `resend`. *)
Definition resend_options (email : string) : ResendOptions :=
  {| rs_type := "signup";
     rs_email := email;
     rs_emailRedirectTo := callback_url |}.

Definition handleGoogleOAuth (mode : AuthMode) : Async AuthResult :=
  try_catch
    (let redirectTo := callback_url in
     let* _ := localStorage_setItem "oauth_mode" (AuthMode_string mode) in
     let opts := oauth_options redirectTo in
     let* r := sdk (SignInWithOAuth opts)
                   (fun h => auth_signInWithOAuth w h opts) in
     match error r with
     | Some err =>
         let* _ := localStorage_removeItem "oauth_mode" in
         ret (failed (Some (message err)))
     | None => ret (succeeded (Some (DataOAuth (data r))))
     end)
    (fun err =>
       let* _ := localStorage_removeItem "oauth_mode" in
       ret (failed (thrown_message err))).

Definition handleOAuthCallback : Async AuthResult :=
  try_catch
    (let* r := sdk GetSession (auth_getSession w) in
     match error r with
     | Some sessionError => ret (failed (Some (message sessionError)))
     | None =>
     match session (data r) with
     | None => ret (failed (Some "No session found. Please try again."))
     | Some session =>
         let userEmail := user_email (session_user session) in
         let* stored := localStorage_getItem "oauth_mode" in
         let authMode := or_else stored "login" in
         let* _ := localStorage_removeItem "oauth_mode" in
         let* profileCheck := checkProfileExists userEmail in
         if String.eqb authMode "signup" then
           if exists_ profileCheck then
             ret (failed (Some "An account with this email already exists. Please log in instead."))
           else
             let* _ := sleep 1000 in
             let* verifyCheck := checkProfileExists userEmail in
             if negb (exists_ verifyCheck) then
               ret (failed (Some "Failed to create user profile. Please try again."))
             else
               ret (succeeded (Some (DataSession session)))
         else if String.eqb authMode "login" then
           if negb (exists_ profileCheck) then
             let* _ := sdk SignOut (auth_signOut w) in
             ret (failed (Some "No account found with this email. Please sign up first."))
           else
             ret (succeeded (Some (DataSession session)))
         else
           ret (failed (Some "Invalid authentication mode"))
     end
     end)
    (fun err =>
       let* _ := localStorage_removeItem "oauth_mode" in
       ret (failed (thrown_message err))).

Definition handleEmailLogin (email password : string) : Async AuthResult :=
  try_catch
    (let* r := sdk (SignInWithPassword email password)
                   (fun h => auth_signInWithPassword w h email password) in
     match error r with
     | Some err => ret (failed (Some (message err)))
     | None => ret (succeeded (Some (DataUserSession (data r))))
     end)
    (fun err => ret (failed (thrown_message err))).

Definition handleEmailSignup (email password fullName : string) : Async AuthResult :=
  try_catch
    (let* profileCheck := checkProfileExists (Some email) in
     if exists_ profileCheck then
       ret (failed (Some "An account with this email already exists. Please log in instead."))
     else
       let opts := signUp_options email password fullName in
       let* r := sdk (SignUp opts) (fun h => auth_signUp w h opts) in
       match error r with
       | Some err => ret (failed (Some (message err)))
       | None =>
           if bool_decide (is_Some (us_session (data r))) then
             ret (succeeded (Some (DataUserSession (data r))))
           else
             ret {| success := true; ar_error := None;
                    requiresVerification := Some true;
                    ar_data := Some (DataUserSession (data r)) |}
       end)
    (fun err => ret (failed (thrown_message err))).

Definition handleSignOut : Async AuthResult :=
  try_catch
    (let* r := sdk SignOut (auth_signOut w) in
     match error r with
     | Some err => ret (failed (Some (message err)))
     | None =>
         let* _ := localStorage_removeItem "oauth_mode" in
         ret (succeeded None)
     end)
    (fun err => ret (failed (thrown_message err))).

Definition resendVerificationEmail (email : string) : Async AuthResult :=
  try_catch
    (let opts := resend_options email in
     let* r := sdk (Resend opts) (fun h => auth_resend w h opts) in
     match error r with
     | Some err => ret (failed (Some (message err)))
     | None => ret (succeeded None)
     end)
    (fun err => ret (failed (thrown_message err))).

End Service.

Record OAuthConfigResult := { valid : bool; errors : list string }.

Definition validateOAuthConfig (env : ImportMetaEnv) : OAuthConfigResult :=
  let errors := [] in
  let supabaseUrl := VITE_SUPABASE_URL env in
  let supabaseKey := VITE_SUPABASE_ANON_KEY env in
  let errors :=
    if negb (truthy supabaseUrl)
    then errors ++ ["VITE_SUPABASE_URL is not set"] else errors in
  let errors :=
    if negb (truthy supabaseKey)
    then errors ++ ["VITE_SUPABASE_ANON_KEY is not set"] else errors in
  {| valid := Nat.eqb (length errors) 0; errors := errors |}.

(** *** Observations *)

(** The lookup reported a profile: it returned a row and no error. *)
Definition lookup_found (o : outcome (Response (option Profile))) : bool :=
  match o with
  | Returned r =>
      match error r with
      | Some _ => false
      | None => bool_decide (is_Some (data r))
      end
  | Threw _ => false
  end.

(** The message of the error a call yields, when it yields one: the
    `message` of the `error` it returns or of the `Error` it throws. *)
Definition error_message_of {D} (o : outcome (Response D)) : option string :=
  match o with
  | Returned r => message <$> error r
  | Threw err => thrown_message err
  end.

Definition sdk_calls (es : list event) : list sdk_call :=
  omap (fun e => match e with Sdk c => Some c | _ => None end) es.



(** The exported operations that answer with an [AuthResult]. *)
Inductive operation : Type :=
| GoogleOAuth (mode : AuthMode)
| OAuthCallback
| EmailLogin (email password : string)
| EmailSignup (email password fullName : string)
| SignOutUser
| ResendVerificationEmail (email : string).

Definition run (w : World) (op : operation) : Async AuthResult :=
  match op with
  | GoogleOAuth mode => handleGoogleOAuth w mode
  | OAuthCallback => handleOAuthCallback w
  | EmailLogin email password => handleEmailLogin w email password
  | EmailSignup email password fullName =>
      handleEmailSignup w email password fullName
  | SignOutUser => handleSignOut w
  | ResendVerificationEmail email => resendVerificationEmail w email
  end.

(** *** Sample worlds *)

Definition ann : User :=
  {| user_id := "u-1"; user_email := Some "ann@example.org" |}.

Definition ann_session : Session :=
  {| session_user := ann; access_token := "token-1" |}.

Definition ann_profile : Profile :=
  {| id := "u-1"; email := "ann@example.org"; full_name := Some "Ann" |}.

(** `{ data, error: null }` *)
Definition ok {D} (d : D) : outcome (Response D) :=
  Returned {| data := d; error := None |}.

(** `{ data, error }` with an error saying [m] *)
Definition refused {D} (m : string) (d : D) : outcome (Response D) :=
  Returned {| data := d; error := Some {| message := m |} |}.

(** The world in which the profile lookup is answered by [lookup], sign-out
    by [signOut] and every other auth call by [auth]; the session, when
    there is one, is Ann's. *)
Definition world
    (lookup : history -> outcome (Response (option Profile)))
    (signOut : outcome (Response unit))
    (auth : forall D, D -> outcome (Response D)) : World :=
  {| origin := "https://certifree.example";
     profiles_select := fun h _ _ => lookup h;
     auth_signInWithOAuth := fun _ opts =>
       auth _ {| provider := oa_provider opts;
                 url := Some "https://accounts.example/o/oauth2" |};
     auth_getSession := fun _ => auth _ {| session := Some ann_session |};
     auth_signOut := fun _ => signOut;
     auth_signInWithPassword := fun _ _ _ =>
       auth _ {| us_user := Some ann; us_session := Some ann_session |};
     auth_signUp := fun _ _ =>
       auth _ {| us_user := Some ann; us_session := Some ann_session |};
     auth_resend := fun _ _ => auth _ tt |}.

Definition no_row : history -> outcome (Response (option Profile)) :=
  fun _ => ok None.

Definition a_row : history -> outcome (Response (option Profile)) :=
  fun _ => ok (Some ann_profile).

(** The database trigger creates the row while the caller waits. *)
Definition row_after_wait : history -> outcome (Response (option Profile)) :=
  fun h =>
    if existsb (fun e => match e with Timeout _ => true | _ => false end) h
    then ok (Some ann_profile) else ok None.

Definition lookup_down : history -> outcome (Response (option Profile)) :=
  fun _ => refused "connection refused" None.

Definition granting : forall D, D -> outcome (Response D) := @ok.

Definition refusing (m : string) : forall D, D -> outcome (Response D) :=
  fun D => refused m.

End AuthService.

(** ** config/environment.ts *)

Module Environment.

Record EnvConfig := {
  supabaseUrl : option string;
  supabaseAnonKey : option string;
  formspreeEndpoint : option string;
  isProduction : bool
}.

Record ValidationResult := {
  valid : bool;
  errors : list string;
  warnings : list string;
  config : option EnvConfig
}.

Definition validateEnvironment (env : ImportMetaEnv) : ValidationResult :=
  let errors := [] in
  let warnings := [] in
  let supabaseUrl := VITE_SUPABASE_URL env in
  let supabaseAnonKey := VITE_SUPABASE_ANON_KEY env in
  let formspreeEndpoint := VITE_FORMSPREE_ENDPOINT env in
  let errors :=
    if negb (truthy supabaseUrl)
    then errors ++ ["VITE_SUPABASE_URL is not set in environment variables"]
    else errors in
  let errors :=
    if negb (truthy supabaseAnonKey)
    then errors ++ ["VITE_SUPABASE_ANON_KEY is not set in environment variables"]
    else errors in
  let errors :=
    if and_then supabaseUrl (fun u => negb (startsWith u "https://"))
    then errors ++ ["VITE_SUPABASE_URL must start with https://"]
    else errors in
  let googleClientId := VITE_GOOGLE_CLIENT_ID env in
  let googleClientSecret := VITE_GOOGLE_CLIENT_SECRET env in
  let warnings :=
    if negb (truthy googleClientId) || negb (truthy googleClientSecret)
    then warnings ++ ["Google OAuth credentials not set (optional, configured in Supabase Dashboard)"]
    else warnings in
  let isProduction := PROD env in
  let warnings :=
    if isProduction && and_then supabaseUrl (fun u => includes u "localhost")
    then warnings ++ ["Using localhost URL in production environment"]
    else warnings in
  let valid := Nat.eqb (length errors) 0 in
  let result := {| valid := valid; errors := errors;
                   warnings := warnings; config := None |} in
  if valid then
    {| valid := valid; errors := errors; warnings := warnings;
       config := Some {| supabaseUrl := supabaseUrl;
                         supabaseAnonKey := supabaseAnonKey;
                         formspreeEndpoint := formspreeEndpoint;
                         isProduction := isProduction |} |}
  else result.

(** *** Sample environments *)

Definition production_env : ImportMetaEnv :=
  {| VITE_SUPABASE_URL := Some "https://certifree.supabase.co";
     VITE_SUPABASE_ANON_KEY := Some "anon-key";
     VITE_FORMSPREE_ENDPOINT := None;
     VITE_GOOGLE_CLIENT_ID := None;
     VITE_GOOGLE_CLIENT_SECRET := None;
     PROD := true;
     DEV := false |}.

Definition insecure_env : ImportMetaEnv :=
  {| VITE_SUPABASE_URL := Some "http://localhost:54321";
     VITE_SUPABASE_ANON_KEY := None;
     VITE_FORMSPREE_ENDPOINT := None;
     VITE_GOOGLE_CLIENT_ID := None;
     VITE_GOOGLE_CLIENT_SECRET := None;
     PROD := false;
     DEV := true |}.

End Environment.

(** ** lib/storage.ts *)

Module Storage.

(** A JavaScript string as its UTF-16 code units: the regular expression
    of the sanitizer has no `u` flag and works unit by unit. *)
Definition code_unit := N.
Definition jsstring := list code_unit.

(** An ASCII literal as a JavaScript string. *)
Definition lit (s : string) : jsstring :=
  map (fun a => Ascii.N_of_ascii a) (String.list_ascii_of_string s).

Record File := { name : jsstring; type : jsstring }.

(** `StorageError` *)
Record StorageError := { se_message : jsstring }.

Record UploadData := { ud_id : jsstring; path : jsstring; fullPath : jsstring }.

(** The declared result of `upload`:
    `{ data, error: null } | { data: null, error: StorageError }`. *)
Inductive UploadResponse : Type :=
| UploadOk (data : UploadData)
| UploadFailed (error : StorageError).

Record UploadOptions := { upsert : bool; contentType : option jsstring }.

Inductive event : Type :=
| DateNow
| Upload (bucket path : jsstring) (file : File) (opts : UploadOptions)
| GetPublicUrl (bucket path : jsstring).

Definition history := list event.

Record World := {
  now : history -> Z;                               (* Date.now() *)
  storage_upload : history -> jsstring -> jsstring -> File -> UploadOptions ->
                   outcome UploadResponse;
  storage_getPublicUrl : history -> jsstring -> jsstring -> jsstring
}.

Definition Async := M unit event.

Record UploadResult := { url : option jsstring; error : option StorageError }.

Definition BUCKET : jsstring := lit "cert-assets".

(** The class `[a-zA-Z0-9_.-]`. *)
Definition in_class (c : code_unit) : bool :=
  ((97 <=? c) && (c <=? 122)            (* a-z *)
   || (65 <=? c) && (c <=? 90)          (* A-Z *)
   || (48 <=? c) && (c <=? 57)          (* 0-9 *)
   || (c =? 95) || (c =? 46) || (c =? 45))%N.   (* _ . - *)

(** `s.replace(/[^a-zA-Z0-9_.-]/g, "_")` *)
Definition replace_outside_class (s : jsstring) : jsstring :=
  map (fun c => if in_class c then c else 95%N) s.

Fixpoint digits (d : Decimal.uint) : jsstring :=
  match d with
  | Nil => []
  | D0 d => 48%N :: digits d
  | D1 d => 49%N :: digits d
  | D2 d => 50%N :: digits d
  | D3 d => 51%N :: digits d
  | D4 d => 52%N :: digits d
  | D5 d => 53%N :: digits d
  | D6 d => 54%N :: digits d
  | D7 d => 55%N :: digits d
  | D8 d => 56%N :: digits d
  | D9 d => 57%N :: digits d
  end.

(** `${n}` for an integral number below 10^21 in magnitude, as every time
    value is. *)
Definition Number_toString (n : Z) : jsstring :=
  match n with
  | Z0 => lit "0"
  | Zpos p => digits (Pos.to_uint p)
  | Zneg p => lit "-" ++ digits (Pos.to_uint p)
  end.

(** `v || undefined` *)
Definition or_undefined (v : jsstring) : option jsstring :=
  match v with
  | [] => None
  | _ => Some v
  end.

Section Uploader.
Variable w : World.

Definition Date_now : Async Z :=
  external DateNow (fun h => Returned (now w h)).

Definition upload (bucket path : jsstring) (file : File) (opts : UploadOptions)
  : Async UploadResponse :=
  external (Upload bucket path file opts)
           (fun h => storage_upload w h bucket path file opts).

Definition getPublicUrl (bucket path : jsstring) : Async jsstring :=
  external (GetPublicUrl bucket path)
           (fun h => Returned (storage_getPublicUrl w h bucket path)).

Definition uploadCertificationAsset (file : File) (certificationId : jsstring)
  : Async UploadResult :=
  let* timestamp := Date_now in
  let sanitized := replace_outside_class (name file) in
  let path := certificationId ++ lit "/" ++ Number_toString timestamp
                ++ lit "_" ++ sanitized in
  let* r := upload BUCKET path file
                   {| upsert := true; contentType := or_undefined (type file) |} in
  match r with
  | UploadFailed error => ret {| url := None; error := Some error |}
  | UploadOk data =>
      let* publicUrl := getPublicUrl BUCKET (Storage.path data) in
      ret {| url := Some publicUrl; error := None |}
  end.

End Uploader.

(** *** Sample files and worlds *)

Definition photo : File :=
  {| name := lit "my photo (1).png"; type := lit "image/png" |}.

(** The world at time [t] in which every upload is answered by [answer]. *)
Definition upload_world (t : Z) (answer : jsstring -> outcome UploadResponse) : World :=
  {| now := fun _ => t;
     storage_upload := fun _ _ path _ _ => answer path;
     storage_getPublicUrl := fun _ bucket path =>
       lit "https://cdn.example/" ++ bucket ++ lit "/" ++ path |}.

Definition stored (path : jsstring) : outcome UploadResponse :=
  Returned (UploadOk {| ud_id := lit "f-1"; path := path;
                        fullPath := BUCKET ++ lit "/" ++ path |}).

Definition connection_lost (path : jsstring) : outcome UploadResponse :=
  Threw (ThrownError {| message := "Failed to fetch" |}).

End Storage.

(** ** The useRecaptcha hook *)

Module Recaptcha.

(** The hook's state: `loaded`, `error` and the `scriptLoadedRef` ref. *)
Record HookState := {
  loaded : bool;
  error : option Error;
  scriptLoadedRef : bool
}.

Inductive event : Type :=
| Execute (siteKey action : string)          (* window.grecaptcha.execute *)
| SetError (e : Error).                      (* the state setter *)

Definition history := list event.

Record World := {
  grecaptcha_present : history -> bool;             (* window.grecaptcha *)
  grecaptcha_execute : history -> string -> string -> outcome string
}.

Definition Async := M HookState event.

Record UseRecaptchaReturn := {
  executeRecaptcha : string -> Async string;
  ret_loaded : bool;
  ret_error : option Error
}.

Section Hook.
Variable w : World.

Definition setError (e : Error) : Async unit :=
  effect (SetError e)
         (fun st => (tt, {| loaded := loaded st; error := Some e;
                            scriptLoadedRef := scriptLoadedRef st |})).

(** `window.grecaptcha` read as a condition. *)
Definition window_grecaptcha : Async bool :=
  fun h st => (Returned (grecaptcha_present w h), st, []).

(** One render of the hook in state [st]; the closure it returns
    captures [siteKey] and the `loaded` of this render. *)
Definition useRecaptcha (siteKey : string) (st : HookState) : UseRecaptchaReturn :=
  let loaded := loaded st in
  let error := error st in
  let executeRecaptcha (action : string) : Async string :=
    if negb loaded then
      throw (ThrownError {| message := "reCAPTCHA not loaded yet" |})
    else
      let* available := window_grecaptcha in
      if negb available then
        throw (ThrownError {| message := "reCAPTCHA not available" |})
      else
        try_catch
          (let* token := external (Execute siteKey action)
                           (fun h => grecaptcha_execute w h siteKey action) in
           ret token)
          (fun err =>
             let error :=                 (* err instanceof Error ? err : new Error(..) *)
               match err with
               | ThrownError e => e
               | ThrownOther => {| message := "Failed to execute reCAPTCHA" |}
               end in
             let* _ := setError error in
             throw (ThrownError error))
  in
  {| executeRecaptcha := executeRecaptcha;
     ret_loaded := loaded;
     ret_error := error |}.

End Hook.

(** *** A sample world and state *)

Definition ready_world : World :=
  {| grecaptcha_present := fun _ => true;
     grecaptcha_execute := fun _ _ _ => Returned "token" |}.

Definition first_render : HookState :=
  {| loaded := false; error := None; scriptLoadedRef := false |}.

End Recaptcha.

(** ** config/environment.ts: the error report and the start-up check *)

Module EnvironmentStartup.
Import Environment.

(** The line feed of `'\n'`. *)
Definition newline : string := String (Ascii.ascii_of_nat 10) "".

Definition getValidationErrorMessage (result : ValidationResult) : string :=
  if valid result then ""
  else
    let lines :=
      (["Environment Configuration Error:";
        ""]
       ++ map (fun err => "   " ++ err)%string (errors result)
       ++ ["";
           "Please create a .env file with:";
           "VITE_SUPABASE_URL=https://your-project.supabase.co";
           "VITE_SUPABASE_ANON_KEY=your-anon-key";
           "";
           "See .env.example for a template."])%list in
    String.concat newline lines.

(** What the start-up check shows to the developer, and what it hands to
    the logger `debug` of the module. *)
Inductive event : Type :=
| ConsoleError (text : string)
| Alert (text : string)
| ConsoleWarn (text : string)
| DebugError (text : string) (errors : list string)       (* debug.error(text, { errors }) *)
| DebugWarn (text : string) (warnings : list string)      (* debug.warn(text, { warnings }) *)
| DebugLog (text : string).                               (* debug.log(text) *)

Definition Sync := M unit event.

Definition console_error (text : string) : Sync unit :=
  effect (ConsoleError text) (fun s => (tt, s)).

Definition alert (text : string) : Sync unit :=
  effect (Alert text) (fun s => (tt, s)).

Definition console_warn (text : string) : Sync unit :=
  effect (ConsoleWarn text) (fun s => (tt, s)).

(** `xs.forEach(f)` *)
Fixpoint forEach {A} (xs : list A) (f : A -> Sync unit) : Sync unit :=
  match xs with
  | [] => ret tt
  | x :: rest => let* _ := f x in forEach rest f
  end.

Definition alert_text : string :=
  ("Environment configuration error!" ++ newline ++ newline
   ++ "Missing required environment variables. Check the console for details.")%string.

(** A call of `validateEnvironment()`: the result [validateEnvironment]
    computes, and the one call to the logger the function makes on the way
    (lines 54-60 of environment.ts). *)
Definition validateEnvironment_call (env : ImportMetaEnv) : Sync ValidationResult :=
  let result := validateEnvironment env in
  let* _ :=
    if negb (valid result) then
      effect (DebugError "Environment validation failed" (errors result))
             (fun s => (tt, s))
    else if Nat.ltb 0 (length (warnings result)) then
      effect (DebugWarn "Environment validation passed with warnings"
                        (warnings result))
             (fun s => (tt, s))
    else
      effect (DebugLog "Environment validation passed") (fun s => (tt, s)) in
  ret result.

(** `result.config!` is returned as it is: the `!` is an assertion of the
    type checker only. *)
Definition initializeEnvironment (env : ImportMetaEnv) : Sync (option EnvConfig) :=
  let* result := validateEnvironment_call env in
  if negb (valid result) then
    let message := getValidationErrorMessage result in
    let* _ := console_error message in
    let* _ := if DEV env then alert alert_text else ret tt in
    throw (ThrownError
             {| message := "Environment validation failed. See console for details." |})
  else
    let* _ :=
      if Nat.ltb 0 (length (warnings result)) then
        let* _ := console_warn "Environment warnings:" in
        forEach (warnings result)
                (fun warning => console_warn ("    " ++ warning)%string)
      else ret tt in
    ret (config result).

(** *** A sample environment *)

Definition dev_env_without_key : ImportMetaEnv :=
  {| VITE_SUPABASE_URL := Some "https://certifree.supabase.co";
     VITE_SUPABASE_ANON_KEY := Some "";
     VITE_FORMSPREE_ENDPOINT := None;
     VITE_GOOGLE_CLIENT_ID := Some "client-id";
     VITE_GOOGLE_CLIENT_SECRET := Some "client-secret";
     PROD := false;
     DEV := true |}.

Definition production_localhost_env : ImportMetaEnv :=
  {| VITE_SUPABASE_URL := Some "https://localhost:54321";
     VITE_SUPABASE_ANON_KEY := Some "anon-key";
     VITE_FORMSPREE_ENDPOINT := Some "https://formspree.example/f/1";
     VITE_GOOGLE_CLIENT_ID := Some "client-id";
     VITE_GOOGLE_CLIENT_SECRET := Some "client-secret";
     PROD := true;
     DEV := false |}.

End EnvironmentStartup.

(** ** The useRecaptcha hook: the effect that loads the script *)

Module RecaptchaEffect.
Import Recaptcha.

(** The script element the effect builds. *)
Record Script := { src : string; async : bool; defer : bool }.

Inductive event : Type :=
| QuerySelector (selector : string)        (* document.querySelector *)
| AppendChild (script : Script)            (* document.body.appendChild *)
| Ready                                    (* window.grecaptcha.ready *)
| Remove                                   (* badge.remove() *)
| SetLoaded (value : bool)                 (* the state setters *)
| SetErrorState (e : Error).

Definition history := list event.

(** The page: whether a selector finds an element, and whether
    `grecaptcha.ready` runs its callback at once. *)
Record Page := {
  query_finds : history -> string -> bool;
  ready_runs_callback : history -> bool
}.

Definition Effect := M HookState event.

(** What the effect returns: nothing, or the cleanup function. *)
Inductive EffectReturn : Type := NoCleanup | Cleanup.

Definition placeholder : string := "your_recaptcha_site_key_here".

(** The double quote of the selector below. *)
Definition dquote : string := String (Ascii.ascii_of_nat 34) "".

Definition script_selector : string :=
  ("script[src*=" ++ dquote ++ "recaptcha/api.js" ++ dquote ++ "]")%string.

Definition badge_selector : string := ".grecaptcha-badge".

Section Effect.
Variable page : Page.

Definition setLoaded (value : bool) : Effect unit :=
  effect (SetLoaded value)
         (fun st => (tt, {| loaded := value; error := error st;
                            scriptLoadedRef := scriptLoadedRef st |})).

Definition setError (e : Error) : Effect unit :=
  effect (SetErrorState e)
         (fun st => (tt, {| loaded := loaded st; error := Some e;
                            scriptLoadedRef := scriptLoadedRef st |})).

(** `scriptLoadedRef.current` *)
Definition read_scriptLoadedRef : Effect bool :=
  fun _ st => (Returned (scriptLoadedRef st), st, []).

(** `scriptLoadedRef.current = value` *)
Definition write_scriptLoadedRef (value : bool) : Effect unit :=
  fun _ st => (Returned tt,
               {| loaded := loaded st; error := error st;
                  scriptLoadedRef := value |}, []).

Definition querySelector (selector : string) : Effect bool :=
  external (QuerySelector selector)
           (fun h => Returned (query_finds page h selector)).

Definition appendChild (script : Script) : Effect unit :=
  effect (AppendChild script) (fun st => (tt, st)).

(** The callback given to `grecaptcha.ready`. *)
Definition ready_callback : Effect unit :=
  let* _ := setLoaded true in
  write_scriptLoadedRef true.

(** `script.onload` *)
Definition script_onload : Effect unit :=
  let* now := external Ready (fun h => Returned (ready_runs_callback page h)) in
  if now then ready_callback else ret tt.

(** `script.onerror` *)
Definition script_onerror : Effect unit :=
  setError {| message := "Failed to load reCAPTCHA script" |}.

(** The function the effect returns. *)
Definition cleanup : Effect unit :=
  let* badge := querySelector badge_selector in
  if badge then effect Remove (fun st => (tt, st)) else ret tt.

(** The body of the `useEffect` of the hook. *)
Definition useEffect_body (siteKey : string) : Effect EffectReturn :=
  let unconfigured := String.eqb siteKey "" || String.eqb siteKey placeholder in
  let* current := read_scriptLoadedRef in
  if unconfigured || current then
    let* _ :=
      if unconfigured
      then setError {| message := "reCAPTCHA site key not configured" |}
      else ret tt in
    ret NoCleanup
  else
    let* existingScript := querySelector script_selector in
    if existingScript then
      let* _ := setLoaded true in
      let* _ := write_scriptLoadedRef true in
      ret NoCleanup
    else
      let script :=
        {| src := ("https://www.google.com/recaptcha/api.js?render=" ++ siteKey)%string;
           async := true;
           defer := true |} in
      let* _ := appendChild script in
      ret Cleanup.

End Effect.

(** *** Sample pages *)

Definition blank_page : Page :=
  {| query_finds := fun _ _ => false;
     ready_runs_callback := fun _ => true |}.

Definition page_with_script : Page :=
  {| query_finds := fun _ selector => String.eqb selector script_selector;
     ready_runs_callback := fun _ => true |}.

End RecaptchaEffect.

(** ** The auth service: further sample worlds *)

Module AuthScenarios.
Import AuthService.

(** Nobody is signed in: `getSession` returns neither a session nor an
    error. *)
Definition signed_out_world : World :=
  {| origin := "https://certifree.example";
     profiles_select := fun h _ _ => no_row h;
     auth_signInWithOAuth := fun _ opts =>
       ok {| provider := oa_provider opts; url := None |};
     auth_getSession := fun _ => ok {| session := None |};
     auth_signOut := fun _ => ok tt;
     auth_signInWithPassword := fun _ _ _ =>
       refused "Invalid login credentials"
               {| us_user := None; us_session := None |};
     auth_signUp := fun _ _ =>
       ok {| us_user := Some ann; us_session := None |};
     auth_resend := fun _ _ => ok tt |}.

End AuthScenarios.

(** * Properties *)

(** ** The auth service *)

Module AuthServiceFacts.
Import AuthService.

Ltac unfold_callers :=
  unfold run, handleOAuthCallback, handleGoogleOAuth, handleEmailLogin,
    handleEmailSignup, handleSignOut, resendVerificationEmail,
    try_catch, bind, sdk, external, ret, throw,
    localStorage_getItem, localStorage_setItem, localStorage_removeItem,
    sleep, effect, result, final, emitted.

Ltac unfold_ops :=
  unfold run, handleOAuthCallback, handleGoogleOAuth, handleEmailLogin,
    handleEmailSignup, handleSignOut, resendVerificationEmail,
    checkProfileExists,
    try_catch, bind, sdk, external, ret, throw,
    localStorage_getItem, localStorage_setItem, localStorage_removeItem,
    sleep, effect, result, final, emitted.

(** Case analysis on the next answer of the world, stored value or test
    the computation in the goal is waiting for. *)
Ltac split_answer :=
  match goal with
  | |- context [match ?x with _ => _ end] =>
      let T := type of x in
      lazymatch T with
      | outcome _ => destruct x eqn:?
      | option _ => destruct x eqn:?
      | bool => destruct x eqn:?
      end
  end.

Ltac explore := unfold_ops; repeat (simpl; split_answer); simpl.

Ltac normalize_history := rewrite <- ?app_assoc; simpl.

(** checkProfileExists returns after one lookup, leaves the store alone,
    and says `exists` exactly when the lookup reported a row. *)
Lemma checkProfileExists_run w email h (st : LocalStore) :
  exists pc,
    checkProfileExists w email h st
    = (Returned pc, st, [Sdk (ProfilesSelect profile_columns email)])
    /\ exists_ pc = lookup_found (profiles_select w h profile_columns email).
Proof.
  unfold checkProfileExists, try_catch, bind, sdk, external, ret. simpl.
  destruct (profiles_select w h profile_columns email) as [r|e]; simpl.
  - destruct (error r); simpl; eauto.
  - eauto.
Qed.

Ltac use_profile_check :=
  match goal with
  | |- context [checkProfileExists ?w ?e ?h ?s] =>
      let pc := fresh "pc" in
      let E := fresh "E" in
      let F := fresh "Hpc" in
      destruct (checkProfileExists_run w e h s) as (pc & E & F);
      rewrite E; clear E; simpl
  end.

(** C1. In handleOAuthCallback, with a session established, the stored mode
    'signup' and a first profile check that finds no profile, the function
    waits once, for 1000 ms, then checks the profile once more and stops:
    it answers success=true with the session when the second check finds
    the profile, and success=false with 'Failed to create user profile.
    Please try again.' when it does not.  The interactions are exactly:
    getSession, read and removal of the flag, lookup, wait, lookup. *)
Theorem oauth_signup_polls_once w h (st : LocalStore) r sess :
  auth_getSession w h = Returned r ->
  error r = None ->
  session (data r) = Some sess ->
  st !! "oauth_mode" = Some "signup" ->
  let email := user_email (session_user sess) in
  let lookup := Sdk (ProfilesSelect profile_columns email) in
  let h1 := h ++ [Sdk GetSession; LocalStorage (GetItem "oauth_mode");
                  LocalStorage (RemoveItem "oauth_mode")] in
  let h2 := h ++ [Sdk GetSession; LocalStorage (GetItem "oauth_mode");
                  LocalStorage (RemoveItem "oauth_mode"); lookup;
                  Timeout 1000] in
  lookup_found (profiles_select w h1 profile_columns email) = false ->
  handleOAuthCallback w h st =
    (Returned
       (if lookup_found (profiles_select w h2 profile_columns email)
        then {| success := true; ar_error := None;
                requiresVerification := None;
                ar_data := Some (DataSession sess) |}
        else {| success := false;
                ar_error := Some "Failed to create user profile. Please try again.";
                requiresVerification := None; ar_data := None |}),
     delete "oauth_mode" st,
     [Sdk GetSession; LocalStorage (GetItem "oauth_mode");
      LocalStorage (RemoveItem "oauth_mode"); lookup; Timeout 1000; lookup]).
Proof.
  intros Hs He Hsess Hmode email lookup h1 h2 H1.
  unfold_callers.
  rewrite Hs. simpl. rewrite He, Hsess. simpl. rewrite Hmode. simpl.
  normalize_history. use_profile_check.
  fold email h1 in Hpc. rewrite H1 in Hpc. rewrite Hpc.
  normalize_history. use_profile_check.
  fold email lookup in Hpc0 |- *. fold h2 in Hpc0. rewrite Hpc0.
  destruct (lookup_found (profiles_select w h2 _ _)); reflexivity.
Qed.

(** The database trigger creates the profile during the wait: the second check finds it. *)
Lemma oauth_signup_polls_once_witness :
  handleOAuthCallback (world row_after_wait (ok tt) granting) []
                      {[ "oauth_mode" := "signup" ]}
  = (Returned (succeeded (Some (DataSession ann_session))), ∅,
     [Sdk GetSession; LocalStorage (GetItem "oauth_mode");
      LocalStorage (RemoveItem "oauth_mode");
      Sdk (ProfilesSelect profile_columns (Some "ann@example.org"));
      Timeout 1000;
      Sdk (ProfilesSelect profile_columns (Some "ann@example.org"))]).
Proof.
  exact (oauth_signup_polls_once (world row_after_wait (ok tt) granting) []
           {[ "oauth_mode" := "signup" ]}
           {| data := {| session := Some ann_session |}; error := None |}
           ann_session eq_refl eq_refl eq_refl eq_refl eq_refl).
Defined.

(** C2, as stated, fails: a sign-up by email for an address without a
    profile makes two SDK calls, the profile lookup and `signUp`. *)
Lemma email_signup_makes_two_sdk_calls :
  sdk_calls (emitted (run (world no_row (ok tt) granting)
                          (EmailSignup "ann@example.org" "secret" "Ann")
                          [] ∅))
  = [ProfilesSelect profile_columns (Some "ann@example.org");
     SignUp {| su_email := "ann@example.org"; su_password := "secret";
               su_data := [("full_name", "Ann"); ("avatar_url", "")];
               su_emailRedirectTo := "https://certifree.example/auth/callback" |}]
  /\ length (sdk_calls (emitted (run (world no_row (ok tt) granting)
                                    (EmailSignup "ann@example.org" "secret" "Ann")
                                    [] ∅))) <> 1.
Proof. split; [reflexivity | discriminate]. Qed.

(** C2, amended.  checkProfileExists, handleGoogleOAuth, handleEmailLogin,
    handleSignOut and resendVerificationEmail make exactly one SDK call per
    invocation.  handleEmailSignup makes the profile lookup and then, unless
    the lookup reported a profile, the `signUp` call: one or two calls.
    handleOAuthCallback makes `getSession`, and nothing more unless that
    call returns a session without error; once a session is established it
    makes a profile lookup for the session's email; then a second lookup
    exactly when the mode is 'signup' and the first lookup reported no
    profile, a sign-out exactly when the mode is 'login' (stored, or by
    default) and the lookup reported no profile, and nothing more
    otherwise: one to three calls. *)
Theorem sdk_calls_per_operation w h (st : LocalStore) :
  (forall email,
      sdk_calls (emitted (checkProfileExists w email h st))
      = [ProfilesSelect profile_columns email])
  /\ (forall mode,
      sdk_calls (emitted (handleGoogleOAuth w mode h st))
      = [SignInWithOAuth (oauth_options (callback_url w))])
  /\ (forall email password,
      sdk_calls (emitted (handleEmailLogin w email password h st))
      = [SignInWithPassword email password])
  /\ sdk_calls (emitted (handleSignOut w h st)) = [SignOut]
  /\ (forall email,
      sdk_calls (emitted (resendVerificationEmail w email h st))
      = [Resend (resend_options w email)])
  /\ (forall email password fullName,
      sdk_calls (emitted (handleEmailSignup w email password fullName h st))
      = ProfilesSelect profile_columns (Some email)
        :: (if lookup_found (profiles_select w h profile_columns (Some email))
            then []
            else [SignUp (signUp_options w email password fullName)]))
  /\ sdk_calls (emitted (handleOAuthCallback w h st))
     = GetSession
       :: match auth_getSession w h with
          | Threw _ => []
          | Returned r =>
              match error r, session (data r) with
              | None, Some sess =>
                  let email := user_email (session_user sess) in
                  let lookup := ProfilesSelect profile_columns email in
                  let mode := or_else (st !! "oauth_mode") "login" in
                  let h1 := h ++ [Sdk GetSession;
                                  LocalStorage (GetItem "oauth_mode");
                                  LocalStorage (RemoveItem "oauth_mode")] in
                  let found :=
                    lookup_found (profiles_select w h1 profile_columns email) in
                  lookup
                  :: (if found then []
                      else if String.eqb mode "signup" then [lookup]
                      else if String.eqb mode "login" then [SignOut]
                      else [])
              | _, _ => []
              end
          end.
Proof.
  repeat split; intros.
  - explore; reflexivity.
  - explore; reflexivity.
  - explore; reflexivity.
  - explore; reflexivity.
  - explore; reflexivity.
  - unfold lookup_found. explore; reflexivity.
  - unfold_callers.
    destruct (auth_getSession w h) as [r|err]; simpl; [| reflexivity].
    destruct (error r); simpl; [reflexivity |].
    destruct (session (data r)) as [sess|]; simpl; [| reflexivity].
    normalize_history. use_profile_check. rewrite <- Hpc.
    destruct (String.eqb (or_else (st !! "oauth_mode") "login") "signup").
    + destruct (exists_ pc); simpl; [reflexivity |].
      normalize_history. use_profile_check.
      destruct (exists_ pc0); reflexivity.
    + destruct (String.eqb (or_else (st !! "oauth_mode") "login") "login").
      * destruct (exists_ pc); simpl; [reflexivity |].
        normalize_history.
        destruct (auth_signOut w _); reflexivity.
      * destruct (exists_ pc); reflexivity.
Qed.

(** C3, as stated, fails: when the profile lookup of handleEmailSignup
    yields an error, the error is not forwarded; the sign-up goes on and
    can succeed. *)
Lemma lookup_error_is_not_forwarded :
  error_message_of
    (profiles_select (world lookup_down (ok tt) granting) []
                     profile_columns (Some "ann@example.org"))
  = Some "connection refused"
  /\ result (run (world lookup_down (ok tt) granting)
                 (EmailSignup "ann@example.org" "secret" "Ann") [] ∅)
     = Returned {| success := true; ar_error := None;
                   requiresVerification := None;
                   ar_data := Some (DataUserSession
                                      {| us_user := Some ann;
                                         us_session := Some ann_session |}) |}.
Proof. split; reflexivity. Qed.

(** C3, amended.  Whenever the own auth call of an exported auth
    operation (`signInWithPassword` for handleEmailLogin; `signUp` for
    handleEmailSignup, reached when the lookup reports no profile;
    `signInWithOAuth` for handleGoogleOAuth; `getSession` for
    handleOAuthCallback; `signOut` for handleSignOut; `resend` for
    resendVerificationEmail) yields an error that carries a message,
    returned as `error` or thrown as an `Error` object, the operation
    returns a result of the uniform shape with success=false and the
    error's message, unchanged, as its error.  The errors of the profile
    lookup are not forwarded: a failed lookup counts as "no profile".
    (A call that throws null or undefined, and a localStorage that fails,
    are outside this statement.) *)
Theorem auth_call_errors_forwarded w h (st : LocalStore) m :
  (forall email password,
      error_message_of (auth_signInWithPassword w h email password) = Some m ->
      result (handleEmailLogin w email password h st)
      = Returned {| success := false; ar_error := Some m;
                    requiresVerification := None; ar_data := None |})
  /\ (forall email password fullName,
      lookup_found (profiles_select w h profile_columns (Some email)) = false ->
      error_message_of
        (auth_signUp w (h ++ [Sdk (ProfilesSelect profile_columns (Some email))])
                     (signUp_options w email password fullName)) = Some m ->
      result (handleEmailSignup w email password fullName h st)
      = Returned {| success := false; ar_error := Some m;
                    requiresVerification := None; ar_data := None |})
  /\ (forall mode,
      error_message_of
        (auth_signInWithOAuth w
           (h ++ [LocalStorage (SetItem "oauth_mode" (AuthMode_string mode))])
           (oauth_options (callback_url w))) = Some m ->
      result (handleGoogleOAuth w mode h st)
      = Returned {| success := false; ar_error := Some m;
                    requiresVerification := None; ar_data := None |})
  /\ (error_message_of (auth_getSession w h) = Some m ->
      result (handleOAuthCallback w h st)
      = Returned {| success := false; ar_error := Some m;
                    requiresVerification := None; ar_data := None |})
  /\ (error_message_of (auth_signOut w h) = Some m ->
      result (handleSignOut w h st)
      = Returned {| success := false; ar_error := Some m;
                    requiresVerification := None; ar_data := None |})
  /\ (forall email,
      error_message_of (auth_resend w h (resend_options w email)) = Some m ->
      result (resendVerificationEmail w email h st)
      = Returned {| success := false; ar_error := Some m;
                    requiresVerification := None; ar_data := None |}).
Proof.
  repeat split.
  - intros email password. unfold_callers.
    destruct (auth_signInWithPassword w h email password) as [r|[e|]];
      simpl; try discriminate.
    + destruct (error r); simpl; [| discriminate].
      intros [= <-]. reflexivity.
    + intros [= <-]. reflexivity.
  - intros email password fullName Hnone. unfold_callers.
    use_profile_check. rewrite Hnone in Hpc. rewrite Hpc.
    destruct (auth_signUp w _ _) as [r|[e|]]; simpl; try discriminate.
    + destruct (error r); simpl; [| discriminate].
      intros [= <-]. reflexivity.
    + intros [= <-]. reflexivity.
  - intros mode. unfold_callers. simpl.
    destruct (auth_signInWithOAuth w _ _) as [r|[e|]]; simpl; try discriminate.
    + destruct (error r); simpl; [| discriminate].
      intros [= <-]. reflexivity.
    + intros [= <-]. reflexivity.
  - unfold_callers.
    destruct (auth_getSession w h) as [r|[e|]]; simpl; try discriminate.
    + destruct (error r); simpl; [| discriminate].
      intros [= <-]. reflexivity.
    + intros [= <-]. reflexivity.
  - unfold_callers.
    destruct (auth_signOut w h) as [r|[e|]]; simpl; try discriminate.
    + destruct (error r); simpl; [| discriminate].
      intros [= <-]. reflexivity.
    + intros [= <-]. reflexivity.
  - intros email. unfold_callers.
    destruct (auth_resend w h _) as [r|[e|]]; simpl; try discriminate.
    + destruct (error r); simpl; [| discriminate].
      intros [= <-]. reflexivity.
    + intros [= <-]. reflexivity.
Qed.

(** A backend that refuses every auth call with the same message. *)
Lemma auth_call_errors_forwarded_witness :
  result (handleEmailLogin (world no_row (refused "rate limited" tt)
                                  (refusing "rate limited"))
                           "ann@example.org" "secret" [] ∅)
  = Returned (failed (Some "rate limited"))
  /\ result (handleEmailSignup (world no_row (refused "rate limited" tt)
                                      (refusing "rate limited"))
                               "ann@example.org" "secret" "Ann" [] ∅)
     = Returned (failed (Some "rate limited"))
  /\ result (handleGoogleOAuth (world no_row (refused "rate limited" tt)
                                      (refusing "rate limited"))
                               login [] ∅)
     = Returned (failed (Some "rate limited"))
  /\ result (handleOAuthCallback (world no_row (refused "rate limited" tt)
                                        (refusing "rate limited")) [] ∅)
     = Returned (failed (Some "rate limited"))
  /\ result (handleSignOut (world no_row (refused "rate limited" tt)
                                  (refusing "rate limited")) [] ∅)
     = Returned (failed (Some "rate limited"))
  /\ result (resendVerificationEmail
               (world no_row (refused "rate limited" tt)
                      (refusing "rate limited"))
               "ann@example.org" [] ∅)
     = Returned (failed (Some "rate limited")).
Proof.
  destruct (auth_call_errors_forwarded
              (world no_row (refused "rate limited" tt)
                     (refusing "rate limited"))
              [] ∅ "rate limited")
    as (Hlogin & Hsignup & Hgoogle & Hcallback & Hsignout & Hresend).
  split; [exact (Hlogin _ _ eq_refl) |].
  split; [exact (Hsignup _ _ _ eq_refl eq_refl) |].
  split; [exact (Hgoogle login eq_refl) |].
  split; [exact (Hcallback eq_refl) |].
  split; [exact (Hsignout eq_refl) |].
  exact (Hresend _ eq_refl).
Defined.

(** C4, as stated, fails: in 'login' mode with a session and no profile,
    when the sign-out call itself throws, the handler of the function
    answers with the thrown message, not with 'No account found with this
    email. Please sign up first.' *)
Lemma login_without_profile_signout_throws :
  handleOAuthCallback
    (world no_row (Threw (ThrownError {| message := "network down" |})) granting)
    [] {[ "oauth_mode" := "login" ]}
  = (Returned {| success := false; ar_error := Some "network down";
                 requiresVerification := None; ar_data := None |},
     ∅,
     [Sdk GetSession; LocalStorage (GetItem "oauth_mode");
      LocalStorage (RemoveItem "oauth_mode");
      Sdk (ProfilesSelect profile_columns (Some "ann@example.org"));
      Sdk SignOut;
      LocalStorage (RemoveItem "oauth_mode")]).
Proof. reflexivity. Qed.

(** C4, amended.  When handleOAuthCallback runs in 'login' mode (the stored
    mode is 'login', empty or absent) with an established session whose
    email has no profile, it calls the external sign-out, once and as its
    last SDK call, and returns success=false; the error is exactly 'No
    account found with this email. Please sign up first.' whenever the
    sign-out call returns (whatever it returns), and the message of the
    thrown value when the sign-out call throws. *)
Theorem oauth_login_without_profile w h (st : LocalStore) r sess :
  auth_getSession w h = Returned r ->
  error r = None ->
  session (data r) = Some sess ->
  or_else (st !! "oauth_mode") "login" = "login" ->
  let email := user_email (session_user sess) in
  let lookup := Sdk (ProfilesSelect profile_columns email) in
  let h1 := h ++ [Sdk GetSession; LocalStorage (GetItem "oauth_mode");
                  LocalStorage (RemoveItem "oauth_mode")] in
  let h2 := h ++ [Sdk GetSession; LocalStorage (GetItem "oauth_mode");
                  LocalStorage (RemoveItem "oauth_mode"); lookup] in
  lookup_found (profiles_select w h1 profile_columns email) = false ->
  sdk_calls (emitted (handleOAuthCallback w h st))
  = [GetSession; ProfilesSelect profile_columns email; SignOut]
  /\ result (handleOAuthCallback w h st)
     = Returned
         {| success := false;
            ar_error :=
              match auth_signOut w h2 with
              | Returned _ =>
                  Some "No account found with this email. Please sign up first."
              | Threw err => thrown_message err
              end;
            requiresVerification := None; ar_data := None |}.
Proof.
  intros Hs He Hsess Hmode email lookup h1 h2 H1.
  unfold_callers.
  rewrite Hs. simpl. rewrite He, Hsess. simpl. rewrite Hmode. simpl.
  normalize_history. use_profile_check.
  fold email h1 in Hpc. rewrite H1 in Hpc. rewrite Hpc. simpl.
  normalize_history. fold email lookup. fold h2.
  destruct (auth_signOut w h2); simpl; split; reflexivity.
Qed.

(** The sign-out returns an error: the answer is still the fixed message. *)
Lemma oauth_login_without_profile_witness :
  sdk_calls (emitted (handleOAuthCallback
                        (world no_row (refused "already signed out" tt) granting)
                        [] ∅))
  = [GetSession; ProfilesSelect profile_columns (Some "ann@example.org");
     SignOut]
  /\ result (handleOAuthCallback
               (world no_row (refused "already signed out" tt) granting)
               [] ∅)
     = Returned (failed (Some "No account found with this email. Please sign up first.")).
Proof.
  exact (oauth_login_without_profile
           (world no_row (refused "already signed out" tt) granting) [] ∅
           {| data := {| session := Some ann_session |}; error := None |}
           ann_session eq_refl eq_refl eq_refl eq_refl eq_refl).
Defined.

(** C5.  A sign-up for an email whose profile the lookup reports as
    existing answers success=false with error 'An account with this email
    already exists. Please log in instead.': in handleEmailSignup, where
    the lookup is the only SDK call made (no `signUp`), and in
    handleOAuthCallback in 'signup' mode. *)
Theorem signup_for_existing_profile w h (st : LocalStore) :
  (forall email password fullName,
      lookup_found (profiles_select w h profile_columns (Some email)) = true ->
      handleEmailSignup w email password fullName h st
      = (Returned
           {| success := false;
              ar_error := Some "An account with this email already exists. Please log in instead.";
              requiresVerification := None; ar_data := None |},
         st,
         [Sdk (ProfilesSelect profile_columns (Some email))]))
  /\ (forall r sess,
      auth_getSession w h = Returned r ->
      error r = None ->
      session (data r) = Some sess ->
      st !! "oauth_mode" = Some "signup" ->
      let email := user_email (session_user sess) in
      let h1 := h ++ [Sdk GetSession; LocalStorage (GetItem "oauth_mode");
                      LocalStorage (RemoveItem "oauth_mode")] in
      lookup_found (profiles_select w h1 profile_columns email) = true ->
      handleOAuthCallback w h st
      = (Returned
           {| success := false;
              ar_error := Some "An account with this email already exists. Please log in instead.";
              requiresVerification := None; ar_data := None |},
         delete "oauth_mode" st,
         [Sdk GetSession; LocalStorage (GetItem "oauth_mode");
          LocalStorage (RemoveItem "oauth_mode");
          Sdk (ProfilesSelect profile_columns email)])).
Proof.
  split.
  - intros email password fullName Hfound. unfold_callers.
    use_profile_check. rewrite Hfound in Hpc. rewrite Hpc. reflexivity.
  - intros r sess Hs He Hsess Hmode email h1 Hfound. unfold_callers.
    rewrite Hs. simpl. rewrite He, Hsess. simpl. rewrite Hmode. simpl.
    normalize_history. use_profile_check.
    fold email h1 in Hpc. rewrite Hfound in Hpc. rewrite Hpc. reflexivity.
Qed.

(** Ann already has a profile. *)
Lemma signup_for_existing_profile_witness :
  handleEmailSignup (world a_row (ok tt) granting)
                    "ann@example.org" "secret" "Ann" [] ∅
  = (Returned (failed (Some "An account with this email already exists. Please log in instead.")),
     ∅,
     [Sdk (ProfilesSelect profile_columns (Some "ann@example.org"))])
  /\ handleOAuthCallback (world a_row (ok tt) granting) []
                         {[ "oauth_mode" := "signup" ]}
     = (Returned (failed (Some "An account with this email already exists. Please log in instead.")),
        ∅,
        [Sdk GetSession; LocalStorage (GetItem "oauth_mode");
         LocalStorage (RemoveItem "oauth_mode");
         Sdk (ProfilesSelect profile_columns (Some "ann@example.org"))]).
Proof.
  split.
  - exact (proj1 (signup_for_existing_profile
                    (world a_row (ok tt) granting) [] ∅)
                 "ann@example.org" "secret" "Ann" eq_refl).
  - exact (proj2 (signup_for_existing_profile
                    (world a_row (ok tt) granting) []
                    {[ "oauth_mode" := "signup" ]})
                 {| data := {| session := Some ann_session |}; error := None |}
                 ann_session eq_refl eq_refl eq_refl eq_refl eq_refl).
Defined.




End AuthServiceFacts.

(** ** config/environment.ts *)

Module EnvironmentFacts.
Import Environment.

Lemma truthy_false_iff (v : option string) :
  truthy v = false <-> v = None \/ v = Some "".
Proof.
  destruct v as [s|]; simpl.
  - destruct (String.eqb_spec s "") as [->|Hne]; simpl.
    + split; auto.
    + split; [discriminate | intros [[=]|[=]]; contradiction].
  - split; auto.
Qed.

Lemma and_then_true_iff (v : option string) (f : string -> bool) :
  and_then v f = true <-> exists u, v = Some u /\ u <> "" /\ f u = true.
Proof.
  destruct v as [s|]; simpl.
  - destruct (String.eqb_spec s "") as [->|Hne].
    + split; [discriminate | intros (u & [= <-] & Hu & _); contradiction].
    + split; [eauto | intros (u & [= <-] & _ & Hf); exact Hf].
  - split; [discriminate | intros (u & [=] & _)].
Qed.

(** The errors, in the order the checks record them. *)
Lemma validateEnvironment_errors env :
  errors (validateEnvironment env)
  = (if truthy (VITE_SUPABASE_URL env) then []
     else ["VITE_SUPABASE_URL is not set in environment variables"])
    ++ (if truthy (VITE_SUPABASE_ANON_KEY env) then []
        else ["VITE_SUPABASE_ANON_KEY is not set in environment variables"])
    ++ (if and_then (VITE_SUPABASE_URL env)
                    (fun u => negb (startsWith u "https://"))
        then ["VITE_SUPABASE_URL must start with https://"] else []).
Proof.
  unfold validateEnvironment.
  destruct (truthy (VITE_SUPABASE_URL env));
    destruct (truthy (VITE_SUPABASE_ANON_KEY env));
    destruct (and_then (VITE_SUPABASE_URL env) _); reflexivity.
Qed.

Lemma validateEnvironment_valid env :
  valid (validateEnvironment env)
  = Nat.eqb (length (errors (validateEnvironment env))) 0.
Proof.
  unfold validateEnvironment.
  destruct (truthy (VITE_SUPABASE_URL env));
    destruct (truthy (VITE_SUPABASE_ANON_KEY env));
    destruct (and_then (VITE_SUPABASE_URL env) _); reflexivity.
Qed.

Lemma validateEnvironment_config env :
  config (validateEnvironment env)
  = if valid (validateEnvironment env)
    then Some {| supabaseUrl := VITE_SUPABASE_URL env;
                 supabaseAnonKey := VITE_SUPABASE_ANON_KEY env;
                 formspreeEndpoint := VITE_FORMSPREE_ENDPOINT env;
                 isProduction := PROD env |}
    else None.
Proof.
  unfold validateEnvironment.
  destruct (truthy (VITE_SUPABASE_URL env));
    destruct (truthy (VITE_SUPABASE_ANON_KEY env));
    destruct (and_then (VITE_SUPABASE_URL env) _); reflexivity.
Qed.

(** C7.  validateEnvironment answers valid=true exactly when its list of
    errors is empty.  An error is recorded exactly in three cases:
    VITE_SUPABASE_URL is not set, VITE_SUPABASE_ANON_KEY is not set (a
    variable counts as not set when it is undefined or the empty string,
    which is what the test `!v` of the code asks), or VITE_SUPABASE_URL is
    set and does not start with 'https://'.  The config field is present
    exactly when valid is true. *)
Theorem validateEnvironment_valid_iff_no_errors env :
  let r := validateEnvironment env in
  let url := VITE_SUPABASE_URL env in
  let key := VITE_SUPABASE_ANON_KEY env in
  (valid r = true <-> errors r = [])
  /\ (forall e,
      In e (errors r) <->
      (e = "VITE_SUPABASE_URL is not set in environment variables"
       /\ (url = None \/ url = Some ""))
      \/ (e = "VITE_SUPABASE_ANON_KEY is not set in environment variables"
          /\ (key = None \/ key = Some ""))
      \/ (e = "VITE_SUPABASE_URL must start with https://"
          /\ exists u, url = Some u /\ u <> ""
                       /\ startsWith u "https://" = false))
  /\ (is_Some (config r) <-> valid r = true).
Proof.
  intros r url key. subst r.
  split; [| split].
  - rewrite validateEnvironment_valid.
    destruct (errors (validateEnvironment env)); simpl; split;
      intros; try reflexivity; discriminate.
  - intros e. rewrite validateEnvironment_errors. fold url key.
    rewrite !in_app_iff.
    assert (Hurl : In e (if truthy url then []
                         else ["VITE_SUPABASE_URL is not set in environment variables"])
                   <-> e = "VITE_SUPABASE_URL is not set in environment variables"
                       /\ (url = None \/ url = Some "")).
    { rewrite <- truthy_false_iff. destruct (truthy url); simpl.
      - split; [tauto | intros [_ [=]]].
      - split; [intros [<-|[]]; auto | intros [-> _]; auto]. }
    assert (Hkey : In e (if truthy key then []
                         else ["VITE_SUPABASE_ANON_KEY is not set in environment variables"])
                   <-> e = "VITE_SUPABASE_ANON_KEY is not set in environment variables"
                       /\ (key = None \/ key = Some "")).
    { rewrite <- truthy_false_iff. destruct (truthy key); simpl.
      - split; [tauto | intros [_ [=]]].
      - split; [intros [<-|[]]; auto | intros [-> _]; auto]. }
    assert (Hhttps : In e (if and_then url (fun u => negb (startsWith u "https://"))
                           then ["VITE_SUPABASE_URL must start with https://"]
                           else [])
                     <-> e = "VITE_SUPABASE_URL must start with https://"
                         /\ exists u, url = Some u /\ u <> ""
                                      /\ startsWith u "https://" = false).
    { assert (Hiff := and_then_true_iff url
                        (fun u => negb (startsWith u "https://"))).
      destruct (and_then url _); simpl.
      - split.
        + intros [<-|[]]. split; [reflexivity |].
          destruct (proj1 Hiff eq_refl) as (u & Hu & Hne & Hs).
          exists u. rewrite negb_true_iff in Hs. auto.
        + intros [-> _]. auto.
      - split; [tauto |].
        intros (_ & u & Hu & Hne & Hs).
        assert (false = true) as [=].
        apply Hiff. exists u. rewrite negb_true_iff. auto. }
    rewrite Hurl, Hkey, Hhttps. reflexivity.
  - rewrite validateEnvironment_config.
    destruct (valid (validateEnvironment env)); split;
      intros H; try reflexivity; try discriminate; eauto.
    destruct H as [? [=]].
Qed.

(** A production environment passes; a plain-http URL without a key fails twice. *)
Lemma validateEnvironment_valid_iff_no_errors_witness :
  valid (validateEnvironment production_env) = true
  /\ is_Some (config (validateEnvironment production_env))
  /\ In "VITE_SUPABASE_URL must start with https://"
        (errors (validateEnvironment insecure_env))
  /\ In "VITE_SUPABASE_ANON_KEY is not set in environment variables"
        (errors (validateEnvironment insecure_env)).
Proof.
  destruct (validateEnvironment_valid_iff_no_errors production_env)
    as (Hvalid & _ & Hconfig).
  destruct (validateEnvironment_valid_iff_no_errors insecure_env)
    as (_ & Herrors & _).
  split; [exact (proj2 Hvalid eq_refl) |].
  split; [exact (proj2 Hconfig (proj2 Hvalid eq_refl)) |].
  split.
  - apply (proj2 (Herrors _)). right. right. split; [reflexivity |].
    exists "http://localhost:54321".
    split; [reflexivity | split; [discriminate | reflexivity]].
  - apply (proj2 (Herrors _)). right. left. split; [reflexivity |].
    left. reflexivity.
Defined.

End EnvironmentFacts.

(** ** lib/storage.ts *)

Module StorageFacts.
Import Storage.

Local Open Scope N_scope.

Lemma replace_outside_class_in_class (s : jsstring) :
  Forall (fun c => in_class c = true) (replace_outside_class s).
Proof.
  induction s as [|c s IH]; simpl; constructor; [| exact IH].
  destruct (in_class c) eqn:Hin; [exact Hin | reflexivity].
Qed.

Lemma digits_in_class (d : Decimal.uint) :
  Forall (fun c => in_class c = true) (digits d).
Proof.
  induction d; simpl; constructor; auto.
Qed.

Lemma Number_toString_in_class (n : Z) :
  Forall (fun c => in_class c = true) (Number_toString n).
Proof.
  destruct n; simpl.
  - repeat constructor.
  - apply digits_in_class.
  - constructor; [reflexivity | apply digits_in_class].
Qed.

Example Number_toString_now :
  Number_toString 1700000000000 = lit "1700000000000".
Proof. reflexivity. Qed.

Example in_class_letters :
  map in_class (lit "aZ5_.-") = [true; true; true; true; true; true]
  /\ map in_class (lit " /()+@") = [false; false; false; false; false; false].
Proof. split; reflexivity. Qed.

(** C8.  For every file and certification id, uploadCertificationAsset
    reads the clock and then uploads, to the bucket 'cert-assets', under the
    path certificationId + '/' + timestamp + '_' + sanitized, where
    sanitized is the file name with every code unit outside
    [A-Za-z0-9_.-] replaced by '_' and the others kept; what follows the
    certification id in the path consists of code units of that class and
    the separating '/'. *)
Theorem upload_path w file certificationId h :
  let sanitized := replace_outside_class (name file) in
  let path := certificationId ++ lit "/" ++ Number_toString (now w h)
                ++ lit "_" ++ sanitized in
  (exists rest,
      emitted (uploadCertificationAsset w file certificationId h tt)
      = DateNow
        :: Upload BUCKET path file
             {| upsert := true; contentType := or_undefined (type file) |}
        :: rest)
  /\ length sanitized = length (name file)
  /\ (forall i c,
      name file !! i = Some c ->
      sanitized !! i = Some (if in_class c then c else 95))
  /\ Forall (fun c => in_class c = true \/ c = 47)
            (drop (length certificationId) path).
Proof.
  intros sanitized path. repeat split.
  - unfold uploadCertificationAsset, bind, Date_now, upload, getPublicUrl,
      external, ret, emitted. simpl. fold sanitized. fold path.
    destruct (storage_upload w _ _ _ _ _) as [[d|e]|err]; simpl; eauto.
  - unfold sanitized, replace_outside_class. apply length_map.
  - unfold sanitized, replace_outside_class.
    induction (name file) as [|c0 l IH]; intros [|i] c; simpl;
      try discriminate.
    + intros [= ->]. reflexivity.
    + apply IH.
  - unfold path. rewrite drop_app_length. simpl.
    constructor; [right; reflexivity |].
    apply Forall_app. split.
    + eapply Forall_impl; [apply Number_toString_in_class | simpl; auto].
    + constructor; [left; reflexivity |].
      eapply Forall_impl; [apply replace_outside_class_in_class | simpl; auto].
Qed.

(** The blank of "my photo (1).png" becomes an underscore. *)
Lemma upload_path_witness :
  replace_outside_class (name photo) !! 2%nat = Some 95
  /\ replace_outside_class (name photo) = lit "my_photo__1_.png".
Proof.
  split.
  - exact (proj1 (proj2 (proj2 (upload_path (upload_world 1700000000000 stored)
                                            photo (lit "cert-42") [])))
                 2%nat 32 eq_refl).
  - reflexivity.
Defined.

(** C9, as stated, fails: when the upload call throws, the function has no
    handler; it throws too and returns no result. *)
Lemma upload_throws_when_sdk_throws :
  result (uploadCertificationAsset (upload_world 1700000000000 connection_lost)
                                   photo (lit "cert-42") [] tt)
  = Threw (ThrownError {| message := "Failed to fetch" |}).
Proof. reflexivity. Qed.

(** C9, amended.  Whenever the upload call returns, uploadCertificationAsset
    returns a result in which exactly one of url and error is null: when
    the call returns an error, the result carries that error and url=null;
    when it returns data, the result carries the public URL of the stored
    path and error=null.  When the upload call throws, the function throws
    the same value. *)
Theorem upload_result w file certificationId h :
  let path := certificationId ++ lit "/" ++ Number_toString (now w h)
                ++ lit "_" ++ replace_outside_class (name file) in
  let opts := {| upsert := true; contentType := or_undefined (type file) |} in
  let run := uploadCertificationAsset w file certificationId h tt in
  match storage_upload w (h ++ [DateNow]) BUCKET path file opts with
  | Returned answer =>
      exists r,
        result run = Returned r
        /\ xorb (bool_decide (url r = None)) (bool_decide (error r = None)) = true
        /\ match answer with
           | UploadFailed e => url r = None /\ error r = Some e
           | UploadOk d =>
               url r = Some (storage_getPublicUrl w
                               (h ++ [DateNow; Upload BUCKET path file opts])
                               BUCKET (Storage.path d))
               /\ error r = None
           end
  | Threw err => result run = Threw err
  end.
Proof.
  intros path opts run. subst run path opts.
  cbv beta iota zeta delta
    [uploadCertificationAsset bind Date_now upload getPublicUrl external ret
     result fst snd].
  destruct (storage_upload w _ _ _ _ _) as [[d|e]|err].
  - eexists. split; [reflexivity |]. cbn [url error].
    rewrite <- app_assoc. auto.
  - eexists. split; [reflexivity |]. cbn [url error]. auto.
  - reflexivity.
Qed.

End StorageFacts.

(** ** The useRecaptcha hook *)

Module RecaptchaFacts.
Import Recaptcha.

(** C10.  The executeRecaptcha that useRecaptcha returns from a render
    whose `loaded` state is false throws an Error with message 'reCAPTCHA
    not loaded yet', whatever the action, and performs no interaction at
    all: in particular it does not call grecaptcha.execute. *)
Theorem executeRecaptcha_not_loaded w siteKey st action h s :
  loaded st = false ->
  executeRecaptcha (useRecaptcha w siteKey st) action h s
  = (Threw (ThrownError {| message := "reCAPTCHA not loaded yet" |}), s, []).
Proof.
  intros Hloaded. unfold useRecaptcha. simpl. rewrite Hloaded. reflexivity.
Qed.

(** The first render: the script has not been loaded. *)
Lemma executeRecaptcha_not_loaded_witness :
  executeRecaptcha (useRecaptcha ready_world "site-key" first_render)
                   "submit" [] first_render
  = (Threw (ThrownError {| message := "reCAPTCHA not loaded yet" |}),
     first_render, []).
Proof.
  exact (executeRecaptcha_not_loaded ready_world "site-key" first_render
           "submit" [] first_render eq_refl).
Defined.

End RecaptchaFacts.

(** ** The auth service: further properties *)

Module AuthServiceMore.
Import AuthService.
Import AuthServiceFacts.

(** Whenever the lookup returns, or throws an Error or another value that
    is not null or undefined, checkProfileExists returns a report after
    exactly one SDK call (the lookup), leaving localStorage alone.  It
    reports `exists` exactly when the lookup returned a row without an
    error; a row is reported with no error; and its error field is the
    message of the error the lookup yielded, returned or thrown. *)
Theorem checkProfileExists_report w email h (st : LocalStore) :
  exists pc,
    checkProfileExists w email h st
    = (Returned pc, st, [Sdk (ProfilesSelect profile_columns email)])
    /\ (exists_ pc = true <->
        exists row, profiles_select w h profile_columns email
                    = Returned {| data := Some row; error := None |})
    /\ (forall row, profile pc = Some row ->
                    exists_ pc = true /\ pc_error pc = None)
    /\ pc_error pc
       = error_message_of (profiles_select w h profile_columns email).
Proof.
  unfold checkProfileExists, try_catch, bind, sdk, external, ret. simpl.
  destruct (profiles_select w h profile_columns email) as [[d e]|err]; simpl.
  - destruct e as [e|]; simpl.
    + eexists. split; [reflexivity |]. simpl. repeat split.
      * discriminate.
      * intros [row [=]].
      * discriminate.
      * discriminate.
    + eexists. split; [reflexivity |]. simpl. repeat split.
      * destruct d as [row|]; [eauto | discriminate].
      * intros [row [= ->]]. reflexivity.
      * destruct d; [reflexivity | discriminate].
  - eexists. split; [reflexivity |]. simpl. repeat split.
    + discriminate.
    + intros [row [=]].
    + discriminate.
    + discriminate.
Qed.

(** A lookup that fails tells "no profile", with the failure's message. *)
Lemma checkProfileExists_report_witness :
  exists pc,
    checkProfileExists (world lookup_down (ok tt) granting)
                       (Some "ann@example.org") [] ∅
    = (Returned pc, ∅,
       [Sdk (ProfilesSelect profile_columns (Some "ann@example.org"))])
    /\ exists_ pc = false
    /\ pc_error pc = Some "connection refused".
Proof.
  destruct (checkProfileExists_report (world lookup_down (ok tt) granting)
              (Some "ann@example.org") [] ∅) as (pc & Hrun & Hiff & _ & Herr).
  exists pc. split; [exact Hrun |]. split; [| exact Herr].
  destruct (exists_ pc); [| reflexivity].
  destruct (proj1 Hiff eq_refl) as [row [=]].
Defined.

(** When `getSession` returns neither an error nor a session,
    handleOAuthCallback answers 'No session found. Please try again.' after
    that single call; it does not look up a profile, and it leaves
    localStorage, the 'oauth_mode' flag included, as it was. *)
Theorem oauth_callback_without_session w h (st : LocalStore) r :
  auth_getSession w h = Returned r ->
  error r = None ->
  session (data r) = None ->
  handleOAuthCallback w h st
  = (Returned {| success := false;
                 ar_error := Some "No session found. Please try again.";
                 requiresVerification := None; ar_data := None |},
     st, [Sdk GetSession]).
Proof.
  intros Hs He Hnone. unfold_callers.
  rewrite Hs. simpl. rewrite He, Hnone. reflexivity.
Qed.

(** Nobody is signed in, and a stale flag stays where it was. *)
Lemma oauth_callback_without_session_witness :
  handleOAuthCallback AuthScenarios.signed_out_world []
                      {[ "oauth_mode" := "signup" ]}
  = (Returned (failed (Some "No session found. Please try again.")),
     {[ "oauth_mode" := "signup" ]}, [Sdk GetSession]).
Proof.
  exact (oauth_callback_without_session AuthScenarios.signed_out_world []
           {[ "oauth_mode" := "signup" ]}
           {| data := {| session := None |}; error := None |}
           eq_refl eq_refl eq_refl).
Defined.

(** With a session established and a stored mode that is neither empty,
    'login' nor 'signup', handleOAuthCallback answers 'Invalid
    authentication mode': it has removed the flag and looked the profile up
    once, and it neither waits nor signs out, whatever the lookup said. *)
Theorem oauth_callback_unknown_mode w h (st : LocalStore) r sess mode :
  auth_getSession w h = Returned r ->
  error r = None ->
  session (data r) = Some sess ->
  st !! "oauth_mode" = Some mode ->
  mode <> "" -> mode <> "login" -> mode <> "signup" ->
  handleOAuthCallback w h st
  = (Returned {| success := false;
                 ar_error := Some "Invalid authentication mode";
                 requiresVerification := None; ar_data := None |},
     delete "oauth_mode" st,
     [Sdk GetSession; LocalStorage (GetItem "oauth_mode");
      LocalStorage (RemoveItem "oauth_mode");
      Sdk (ProfilesSelect profile_columns (user_email (session_user sess)))]).
Proof.
  intros Hs He Hsess Hmode Hne Hlogin Hsignup. unfold_callers.
  rewrite Hs. simpl. rewrite He, Hsess. simpl. rewrite Hmode. simpl.
  apply String.eqb_neq in Hne, Hlogin, Hsignup.
  rewrite Hne, Hsignup, Hlogin.
  normalize_history. use_profile_check. reflexivity.
Qed.

(** A flag written by something else than handleGoogleOAuth. *)
Lemma oauth_callback_unknown_mode_witness :
  handleOAuthCallback (world no_row (ok tt) granting) []
                      {[ "oauth_mode" := "register" ]}
  = (Returned (failed (Some "Invalid authentication mode")), ∅,
     [Sdk GetSession; LocalStorage (GetItem "oauth_mode");
      LocalStorage (RemoveItem "oauth_mode");
      Sdk (ProfilesSelect profile_columns (Some "ann@example.org"))]).
Proof.
  exact (oauth_callback_unknown_mode (world no_row (ok tt) granting) []
           {[ "oauth_mode" := "register" ]}
           {| data := {| session := Some ann_session |}; error := None |}
           ann_session "register" eq_refl eq_refl eq_refl eq_refl
           ltac:(discriminate) ltac:(discriminate) ltac:(discriminate)).
Defined.

(** In 'login' mode (the stored mode is 'login', empty or absent) with a
    session established and a profile reported by the lookup,
    handleOAuthCallback answers success=true with the session after
    getSession and one lookup; it does not sign out. *)
Theorem oauth_callback_login_with_profile w h (st : LocalStore) r sess :
  auth_getSession w h = Returned r ->
  error r = None ->
  session (data r) = Some sess ->
  or_else (st !! "oauth_mode") "login" = "login" ->
  let email := user_email (session_user sess) in
  let h1 := h ++ [Sdk GetSession; LocalStorage (GetItem "oauth_mode");
                  LocalStorage (RemoveItem "oauth_mode")] in
  lookup_found (profiles_select w h1 profile_columns email) = true ->
  handleOAuthCallback w h st
  = (Returned {| success := true; ar_error := None;
                 requiresVerification := None;
                 ar_data := Some (DataSession sess) |},
     delete "oauth_mode" st,
     [Sdk GetSession; LocalStorage (GetItem "oauth_mode");
      LocalStorage (RemoveItem "oauth_mode");
      Sdk (ProfilesSelect profile_columns email)]).
Proof.
  intros Hs He Hsess Hmode email h1 Hfound. unfold_callers.
  rewrite Hs. simpl. rewrite He, Hsess. simpl. rewrite Hmode. simpl.
  normalize_history. use_profile_check.
  fold email h1 in Hpc. rewrite Hfound in Hpc. rewrite Hpc. reflexivity.
Qed.

(** Without a stored flag the callback is a login. *)
Lemma oauth_callback_login_with_profile_witness :
  handleOAuthCallback (world a_row (ok tt) granting) [] ∅
  = (Returned (succeeded (Some (DataSession ann_session))), ∅,
     [Sdk GetSession; LocalStorage (GetItem "oauth_mode");
      LocalStorage (RemoveItem "oauth_mode");
      Sdk (ProfilesSelect profile_columns (Some "ann@example.org"))]).
Proof.
  exact (oauth_callback_login_with_profile (world a_row (ok tt) granting) [] ∅
           {| data := {| session := Some ann_session |}; error := None |}
           ann_session eq_refl eq_refl eq_refl eq_refl eq_refl).
Defined.

(** handleOAuthCallback answers success=true only if `getSession` returned
    a session without error and a profile lookup, the first or the one after
    the wait, reported a profile for the session's email.  The result then
    carries that session and no error, the flag is gone from localStorage,
    and no sign-out was made. *)
Theorem oauth_callback_success_is_backed w h (st : LocalStore) res :
  result (handleOAuthCallback w h st) = Returned res ->
  success res = true ->
  exists r sess,
    auth_getSession w h = Returned r
    /\ error r = None
    /\ session (data r) = Some sess
    /\ ar_data res = Some (DataSession sess)
    /\ ar_error res = None
    /\ final (handleOAuthCallback w h st) !! "oauth_mode" = None
    /\ ~ In SignOut (sdk_calls (emitted (handleOAuthCallback w h st)))
    /\ let email := user_email (session_user sess) in
       let h1 := h ++ [Sdk GetSession; LocalStorage (GetItem "oauth_mode");
                       LocalStorage (RemoveItem "oauth_mode")] in
       let h2 := h ++ [Sdk GetSession; LocalStorage (GetItem "oauth_mode");
                       LocalStorage (RemoveItem "oauth_mode");
                       Sdk (ProfilesSelect profile_columns email);
                       Timeout 1000] in
       lookup_found (profiles_select w h1 profile_columns email) = true
       \/ lookup_found (profiles_select w h2 profile_columns email) = true.
Proof.
  unfold_callers.
  destruct (auth_getSession w h) as [r|err] eqn:Hs; simpl;
    [| intros [= <-]; discriminate].
  destruct (error r) as [e|] eqn:He; simpl; [intros [= <-]; discriminate |].
  destruct (session (data r)) as [sess|] eqn:Hsess; simpl;
    [| intros [= <-]; discriminate].
  normalize_history. use_profile_check.
  intros Hres Hok. exists r, sess.
  split; [reflexivity |]. split; [exact He |]. split; [exact Hsess |].
  revert Hres.
  destruct (String.eqb (or_else (st !! "oauth_mode") "login") "signup").
  - destruct (exists_ pc) eqn:Hex; simpl.
    + intros [= <-]. discriminate.
    + normalize_history. use_profile_check.
      destruct (exists_ pc0) eqn:Hex0; simpl.
      * intros [= <-]. simpl. rewrite lookup_delete_eq.
        repeat split; try reflexivity.
        -- simpl. intuition discriminate.
        -- right. rewrite <- Hpc0. reflexivity.
      * intros [= <-]. discriminate.
  - destruct (String.eqb (or_else (st !! "oauth_mode") "login") "login").
    + destruct (exists_ pc) eqn:Hex; simpl.
      * intros [= <-]. simpl. rewrite lookup_delete_eq.
        repeat split; try reflexivity.
        -- simpl. intuition discriminate.
        -- left. rewrite <- Hpc. reflexivity.
      * normalize_history.
        destruct (auth_signOut w _); simpl; intros [= <-]; discriminate.
    + simpl. intros [= <-]. discriminate.
Qed.

(** The profile appears during the wait. *)
Lemma oauth_callback_success_is_backed_witness :
  final (handleOAuthCallback (world row_after_wait (ok tt) granting) []
                             {[ "oauth_mode" := "signup" ]})
  !! "oauth_mode" = None.
Proof.
  assert (Hres : result (handleOAuthCallback
                           (world row_after_wait (ok tt) granting) []
                           {[ "oauth_mode" := "signup" ]})
                 = Returned (succeeded (Some (DataSession ann_session))))
    by reflexivity.
  destruct (oauth_callback_success_is_backed _ _ _ _ Hres eq_refl)
    as (r & sess & _ & _ & _ & _ & _ & Hflag & _).
  exact Hflag.
Defined.

(** The results of the six operations have one shape: a success never
    carries an error, a failure never carries data or a verification flag,
    and only handleEmailSignup ever sets `requiresVerification`. *)
Theorem auth_result_shape w op h (st : LocalStore) res :
  result (run w op h st) = Returned res ->
  (if success res
   then ar_error res = None
   else ar_data res = None /\ requiresVerification res = None)
  /\ (requiresVerification res <> None ->
      success res = true
      /\ exists email password fullName,
           op = EmailSignup email password fullName).
Proof.
  revert res.
  set (shape := fun res : AuthResult =>
                  (if success res
                   then ar_error res = None
                   else ar_data res = None /\ requiresVerification res = None)
                  /\ (requiresVerification res <> None ->
                      success res = true
                      /\ exists email password fullName,
                           op = EmailSignup email password fullName)).
  enough (forall res, result (run w op h st) = Returned res -> shape res)
    by assumption.
  intros res.
  destruct op; explore; intros [= <-]; subst shape; simpl;
    (split; [auto |]); intros Hrv; try (exfalso; apply Hrv; reflexivity);
    split; eauto.
Qed.

(** A sign-up that awaits the confirmation of the email address. *)
Lemma auth_result_shape_witness :
  ar_error {| success := true; ar_error := None;
              requiresVerification := Some true;
              ar_data := Some (DataUserSession
                                 {| us_user := Some ann; us_session := None |}) |}
  = None.
Proof.
  assert (Hres : result (run AuthScenarios.signed_out_world
                             (EmailSignup "ann@example.org" "secret" "Ann")
                             [] ∅)
                 = Returned {| success := true; ar_error := None;
                               requiresVerification := Some true;
                               ar_data := Some (DataUserSession
                                                  {| us_user := Some ann;
                                                     us_session := None |}) |})
    by reflexivity.
  exact (proj1 (auth_result_shape _ _ _ _ _ Hres)).
Defined.

(** When no profile is reported for the email and `signUp` returns without
    error, handleEmailSignup answers success=true with the returned data,
    and sets requiresVerification=true exactly when the returned data holds
    no session. *)
Theorem email_signup_verification w h (st : LocalStore) email password fullName r :
  lookup_found (profiles_select w h profile_columns (Some email)) = false ->
  auth_signUp w (h ++ [Sdk (ProfilesSelect profile_columns (Some email))])
              (signUp_options w email password fullName) = Returned r ->
  error r = None ->
  handleEmailSignup w email password fullName h st
  = (Returned {| success := true; ar_error := None;
                 requiresVerification :=
                   match us_session (data r) with
                   | Some _ => None
                   | None => Some true
                   end;
                 ar_data := Some (DataUserSession (data r)) |},
     st,
     [Sdk (ProfilesSelect profile_columns (Some email));
      Sdk (SignUp (signUp_options w email password fullName))]).
Proof.
  intros Hnone Hs He. unfold_callers.
  use_profile_check. rewrite Hnone in Hpc. rewrite Hpc.
  rewrite Hs. simpl. rewrite He.
  destruct (us_session (data r)); reflexivity.
Qed.

(** The backend creates the user and waits for the email confirmation. *)
Lemma email_signup_verification_witness :
  handleEmailSignup AuthScenarios.signed_out_world
                    "ann@example.org" "secret" "Ann" [] ∅
  = (Returned {| success := true; ar_error := None;
                 requiresVerification := Some true;
                 ar_data := Some (DataUserSession
                                    {| us_user := Some ann;
                                       us_session := None |}) |},
     ∅,
     [Sdk (ProfilesSelect profile_columns (Some "ann@example.org"));
      Sdk (SignUp (signUp_options AuthScenarios.signed_out_world
                                  "ann@example.org" "secret" "Ann"))]).
Proof.
  exact (email_signup_verification AuthScenarios.signed_out_world [] ∅
           "ann@example.org" "secret" "Ann"
           {| data := {| us_user := Some ann; us_session := None |};
              error := None |}
           eq_refl eq_refl eq_refl).
Defined.

(** The flag handleGoogleOAuth leaves behind drives the callback.  After a
    successful handleGoogleOAuth for a mode, a callback that finds a session
    and a profile answers as that mode asks: a login succeeds with the
    session, a sign-up is refused with 'An account with this email already
    exists. Please log in instead.'; either way the flag is consumed. *)
Theorem google_oauth_then_callback w h (st : LocalStore) mode res w' h' r sess :
  result (handleGoogleOAuth w mode h st) = Returned res ->
  success res = true ->
  let st1 := final (handleGoogleOAuth w mode h st) in
  auth_getSession w' h' = Returned r ->
  error r = None ->
  session (data r) = Some sess ->
  let email := user_email (session_user sess) in
  let h1 := h' ++ [Sdk GetSession; LocalStorage (GetItem "oauth_mode");
                   LocalStorage (RemoveItem "oauth_mode")] in
  lookup_found (profiles_select w' h1 profile_columns email) = true ->
  result (handleOAuthCallback w' h' st1)
  = Returned
      match mode with
      | login =>
          {| success := true; ar_error := None;
             requiresVerification := None;
             ar_data := Some (DataSession sess) |}
      | signup =>
          {| success := false;
             ar_error := Some "An account with this email already exists. Please log in instead.";
             requiresVerification := None; ar_data := None |}
      end
  /\ final (handleOAuthCallback w' h' st1) !! "oauth_mode" = None.
Proof.
  intros Hres Hok st1 Hs He Hsess email h1 Hfound.
  assert (Hst1 : st1 = <["oauth_mode" := AuthMode_string mode]> st).
  { subst st1. revert Hres. unfold_ops. simpl.
    destruct (auth_signInWithOAuth w _ _) as [a|err]; simpl;
      [destruct (error a); simpl |]; intros [= <-];
      try discriminate. reflexivity. }
  rewrite Hst1. unfold_callers.
  rewrite Hs. simpl. rewrite He, Hsess. simpl.
  rewrite lookup_insert_eq.
  normalize_history. use_profile_check.
  fold email h1 in Hpc. rewrite Hfound in Hpc.
  destruct mode; simpl; rewrite Hpc; simpl;
    rewrite lookup_delete_eq; split; reflexivity.
Qed.

(** Ann, who has a profile, starts a sign-up with Google. *)
Lemma google_oauth_then_callback_witness :
  result (handleOAuthCallback
            (world a_row (ok tt) granting) []
            (final (handleGoogleOAuth (world a_row (ok tt) granting)
                                      signup [] ∅)))
  = Returned (failed (Some "An account with this email already exists. Please log in instead.")).
Proof.
  assert (Hres : result (handleGoogleOAuth (world a_row (ok tt) granting)
                                           signup [] ∅)
                 = Returned (succeeded
                               (Some (DataOAuth
                                        {| provider := "google";
                                           url := Some "https://accounts.example/o/oauth2" |}))))
    by reflexivity.
  exact (proj1 (google_oauth_then_callback
                  (world a_row (ok tt) granting) [] ∅ signup _
                  (world a_row (ok tt) granting) []
                  {| data := {| session := Some ann_session |}; error := None |}
                  ann_session Hres eq_refl eq_refl eq_refl eq_refl eq_refl)).
Defined.



(** validateOAuthConfig answers valid=true exactly when both
    VITE_SUPABASE_URL and VITE_SUPABASE_ANON_KEY hold a non-empty string,
    and exactly when it records no error; it does not look at the scheme of
    the URL. *)
Theorem validateOAuthConfig_valid_iff env :
  (valid (validateOAuthConfig env) = true <->
   truthy (VITE_SUPABASE_URL env) = true
   /\ truthy (VITE_SUPABASE_ANON_KEY env) = true)
  /\ (valid (validateOAuthConfig env) = true <->
      errors (validateOAuthConfig env) = [])
  /\ (In "VITE_SUPABASE_URL is not set" (errors (validateOAuthConfig env)) <->
      truthy (VITE_SUPABASE_URL env) = false)
  /\ (In "VITE_SUPABASE_ANON_KEY is not set" (errors (validateOAuthConfig env)) <->
      truthy (VITE_SUPABASE_ANON_KEY env) = false).
Proof.
  unfold validateOAuthConfig.
  destruct (truthy (VITE_SUPABASE_URL env));
    destruct (truthy (VITE_SUPABASE_ANON_KEY env)); simpl;
    repeat split; intros; try discriminate; try reflexivity; auto;
    repeat match goal with
      | H : _ /\ _ |- _ => destruct H
      | H : _ \/ _ |- _ => destruct H
      | H : False |- _ => destruct H
      end; try discriminate.
Qed.

(** A plain-http URL passes this check. *)
Lemma validateOAuthConfig_valid_iff_witness :
  valid (validateOAuthConfig Environment.insecure_env) = false
  /\ valid (validateOAuthConfig EnvironmentStartup.production_localhost_env) = true.
Proof.
  split.
  - destruct (valid (validateOAuthConfig Environment.insecure_env)) eqn:Hv;
      [| reflexivity].
    destruct (proj1 (proj1 (validateOAuthConfig_valid_iff
                              Environment.insecure_env)) Hv) as [_ [=]].
  - exact (proj2 (proj1 (validateOAuthConfig_valid_iff
                           EnvironmentStartup.production_localhost_env))
                 (conj eq_refl eq_refl)).
Defined.

(** Any environment that validateEnvironment accepts is accepted by
    validateOAuthConfig as well. *)
Theorem validateEnvironment_implies_oauth_config env :
  Environment.valid (Environment.validateEnvironment env) = true ->
  valid (validateOAuthConfig env) = true
  /\ errors (validateOAuthConfig env) = [].
Proof.
  unfold Environment.validateEnvironment, validateOAuthConfig.
  destruct (truthy (VITE_SUPABASE_URL env));
    destruct (truthy (VITE_SUPABASE_ANON_KEY env));
    destruct (and_then (VITE_SUPABASE_URL env) _); simpl;
    intros; try discriminate; split; reflexivity.
Qed.

Lemma validateEnvironment_implies_oauth_config_witness :
  valid (validateOAuthConfig Environment.production_env) = true
  /\ errors (validateOAuthConfig Environment.production_env) = [].
Proof.
  exact (validateEnvironment_implies_oauth_config
           Environment.production_env eq_refl).
Defined.

End AuthServiceMore.

(** ** config/environment.ts: further properties *)

Module EnvironmentMore.
Import Environment.
Import EnvironmentStartup.

(** `startsWith` tells a prefix. *)
Lemma startsWith_prefix (s p : string) :
  startsWith s p = true <-> exists rest, s = (p ++ rest)%string.
Proof.
  revert s. induction p as [|c p IH]; intros s.
  - split; [eauto | destruct s; reflexivity].
  - destruct s as [|d s]; simpl.
    + split; [discriminate | intros [rest [=]]].
    + destruct (Ascii.eqb_spec c d) as [->|Hne].
      * rewrite IH. split.
        -- intros [rest ->]. eauto.
        -- intros [rest [= ->]]. eauto.
      * split; [discriminate | intros [rest [= -> _]]; contradiction].
Qed.

(** `includes` tells a substring. *)
Lemma includes_infix (s p : string) :
  includes s p = true <-> exists pre post, s = (pre ++ p ++ post)%string.
Proof.
  induction s as [|d s IH]; simpl.
  - rewrite orb_false_r. destruct p as [|c p]; simpl.
    + split; [exists "", ""; reflexivity | reflexivity].
    + split; [discriminate |].
      intros (pre & post & Heq). destruct pre; discriminate.
  - rewrite orb_true_iff, IH.
    change (match p with
            | "" => true
            | String c p' => if Ascii.eqb c d then startsWith s p' else false
            end) with (startsWith (String d s) p).
    rewrite startsWith_prefix. split.
    + intros [[rest ->]|(pre & post & ->)].
      * exists "", rest. reflexivity.
      * exists (String d pre), post. reflexivity.
    + intros (pre & post & Heq). destruct pre as [|d' pre]; simpl in Heq.
      * left. eauto.
      * injection Heq as -> ->. right. eauto.
Qed.

(** Whenever validateEnvironment answers valid=true, its config carries the
    two variables as they are, the URL begins with 'https://' and the key
    is not empty. *)
Theorem valid_config_is_secure env :
  valid (validateEnvironment env) = true ->
  exists rest key,
    VITE_SUPABASE_URL env = Some ("https://" ++ rest)%string
    /\ VITE_SUPABASE_ANON_KEY env = Some key
    /\ key <> ""
    /\ config (validateEnvironment env)
       = Some {| supabaseUrl := Some ("https://" ++ rest)%string;
                 supabaseAnonKey := Some key;
                 formspreeEndpoint := VITE_FORMSPREE_ENDPOINT env;
                 isProduction := PROD env |}.
Proof.
  unfold validateEnvironment.
  destruct (VITE_SUPABASE_URL env) as [u|];
    destruct (VITE_SUPABASE_ANON_KEY env) as [k|]; simpl;
    try destruct (String.eqb_spec u "") as [->|Hu];
    try destruct (String.eqb_spec k "") as [->|Hk]; simpl;
    try destruct (startsWith u "https://") eqn:Hs; simpl;
    try discriminate.
  intros _. apply startsWith_prefix in Hs as [rest ->].
  exists rest, k. auto.
Qed.

Lemma valid_config_is_secure_witness :
  exists rest key,
    VITE_SUPABASE_URL production_env = Some ("https://" ++ rest)%string
    /\ VITE_SUPABASE_ANON_KEY production_env = Some key
    /\ key <> ""
    /\ config (validateEnvironment production_env)
       = Some {| supabaseUrl := Some ("https://" ++ rest)%string;
                 supabaseAnonKey := Some key;
                 formspreeEndpoint := None;
                 isProduction := true |}.
Proof.
  exact (valid_config_is_secure production_env eq_refl).
Defined.

(** The verdict of validateEnvironment depends on VITE_SUPABASE_URL and
    VITE_SUPABASE_ANON_KEY only: two environments that agree on these two
    get the same `valid` and the same errors, whatever their Google
    credentials, Formspree endpoint and build mode are. *)
Theorem verdict_depends_on_url_and_key env1 env2 :
  VITE_SUPABASE_URL env1 = VITE_SUPABASE_URL env2 ->
  VITE_SUPABASE_ANON_KEY env1 = VITE_SUPABASE_ANON_KEY env2 ->
  valid (validateEnvironment env1) = valid (validateEnvironment env2)
  /\ errors (validateEnvironment env1) = errors (validateEnvironment env2).
Proof.
  intros Hurl Hkey. unfold validateEnvironment. rewrite Hurl, Hkey.
  destruct (truthy (VITE_SUPABASE_URL env2));
    destruct (truthy (VITE_SUPABASE_ANON_KEY env2));
    destruct (and_then (VITE_SUPABASE_URL env2) _); simpl; auto.
Qed.

(** A warning is recorded in exactly two cases: the Google credentials
    warning when the client id or the client secret is not set, and the
    localhost warning when the build is a production build and the URL is
    set and contains 'localhost'.  Warnings do not change the verdict. *)
Theorem validateEnvironment_warnings env :
  let r := validateEnvironment env in
  (forall text,
      In text (warnings r) <->
      (text = "Google OAuth credentials not set (optional, configured in Supabase Dashboard)"
       /\ (truthy (VITE_GOOGLE_CLIENT_ID env) = false
           \/ truthy (VITE_GOOGLE_CLIENT_SECRET env) = false))
      \/ (text = "Using localhost URL in production environment"
          /\ PROD env = true
          /\ exists pre post,
               VITE_SUPABASE_URL env = Some (pre ++ "localhost" ++ post)%string))
  /\ (valid r = true <-> errors r = []).
Proof.
  intros r. subst r.
  assert (Hlocal : and_then (VITE_SUPABASE_URL env)
                            (fun u => includes u "localhost") = true
                   <-> exists pre post,
                         VITE_SUPABASE_URL env
                         = Some (pre ++ "localhost" ++ post)%string).
  { destruct (VITE_SUPABASE_URL env) as [u|]; simpl.
    - destruct (String.eqb_spec u "") as [->|Hu].
      + split; [discriminate |].
        intros (pre & post & [= Heq]). destruct pre; discriminate.
      + rewrite includes_infix. split.
        * intros (pre & post & ->). eauto.
        * intros (pre & post & [= ->]). eauto.
    - split; [discriminate | intros (pre & post & [=])]. }
  split.
  - intros text. unfold validateEnvironment.
    destruct (truthy (VITE_SUPABASE_URL env));
      destruct (truthy (VITE_SUPABASE_ANON_KEY env));
      destruct (and_then (VITE_SUPABASE_URL env)
                         (fun u => negb (startsWith u "https://")));
      simpl;
      destruct (truthy (VITE_GOOGLE_CLIENT_ID env));
      destruct (truthy (VITE_GOOGLE_CLIENT_SECRET env));
      destruct (PROD env);
      destruct (and_then (VITE_SUPABASE_URL env)
                         (fun u => includes u "localhost")) eqn:Hl;
      simpl; split;
      repeat match goal with
        | |- _ \/ _ -> _ => intros [?|?]
        | |- _ /\ _ -> _ => intros [? ?]
        | |- False -> _ => intros []
        | |- _ = _ -> _ => intros ?
        | H : _ \/ _ |- _ => destruct H
        | H : _ /\ _ |- _ => destruct H
        | H : False |- _ => destruct H
        end;
      subst; try discriminate; auto 8;
      try (right; split; [reflexivity | split; [reflexivity |]];
           apply Hlocal; reflexivity);
      try (apply Hlocal in H1; discriminate).
  - unfold validateEnvironment.
    destruct (truthy (VITE_SUPABASE_URL env));
      destruct (truthy (VITE_SUPABASE_ANON_KEY env));
      destruct (and_then (VITE_SUPABASE_URL env)
                         (fun u => negb (startsWith u "https://")));
      simpl; split; intros; try discriminate; reflexivity.
Qed.

Lemma verdict_depends_on_url_and_key_witness :
  valid (validateEnvironment production_env)
  = valid (validateEnvironment
             {| VITE_SUPABASE_URL := Some "https://certifree.supabase.co";
                VITE_SUPABASE_ANON_KEY := Some "anon-key";
                VITE_FORMSPREE_ENDPOINT := Some "https://formspree.example/f/1";
                VITE_GOOGLE_CLIENT_ID := Some "client-id";
                VITE_GOOGLE_CLIENT_SECRET := Some "client-secret";
                PROD := false;
                DEV := true |}).
Proof.
  exact (proj1 (verdict_depends_on_url_and_key production_env _
                  eq_refl eq_refl)).
Defined.

(** A production build that points at a local backend. *)
Lemma validateEnvironment_warnings_witness :
  In "Using localhost URL in production environment"
     (warnings (validateEnvironment production_localhost_env))
  /\ valid (validateEnvironment production_localhost_env) = true.
Proof.
  destruct (validateEnvironment_warnings production_localhost_env)
    as [Hwarn Hvalid].
  split.
  - apply (proj2 (Hwarn _)). right. split; [reflexivity |].
    split; [reflexivity |]. exists "https://", ":54321". reflexivity.
  - exact (proj2 Hvalid eq_refl).
Defined.

Lemma string_app_assoc (a b c : string) :
  ((a ++ b) ++ c = a ++ b ++ c)%string.
Proof.
  induction a as [|x a IH]; [reflexivity |].
  change (String x ((a ++ b) ++ c) = String x (a ++ b ++ c))%string.
  f_equal. exact IH.
Qed.

(** Joining with a separator, around an inner element. *)
Lemma concat_around sep (before after : list string) (x : string) :
  before <> [] -> after <> [] ->
  String.concat sep (before ++ x :: after)
  = (String.concat sep before ++ sep ++ x ++ sep
       ++ String.concat sep after)%string.
Proof.
  intros Hb Ha. induction before as [|b before IH]; [contradiction |].
  destruct before as [|b' before].
  - simpl. destruct after as [|a after]; [contradiction |]. reflexivity.
  - change (String.concat sep ((b :: b' :: before) ++ x :: after))
      with (b ++ sep ++ String.concat sep ((b' :: before) ++ x :: after))%string.
    rewrite IH by discriminate.
    change (String.concat sep (b :: b' :: before))
      with (b ++ sep ++ String.concat sep (b' :: before))%string.
    rewrite !string_app_assoc. reflexivity.
Qed.

(** getValidationErrorMessage answers the empty string exactly for a
    result that is valid.  For any other result the message shows every
    recorded error on a line of its own, behind three blanks. *)
Theorem error_message_lists_every_error (r : ValidationResult) :
  (getValidationErrorMessage r = "" <-> valid r = true)
  /\ (valid r = false ->
      forall e, In e (errors r) ->
      exists before after,
        getValidationErrorMessage r
        = (before ++ newline ++ "   " ++ e ++ newline ++ after)%string).
Proof.
  unfold getValidationErrorMessage. split.
  - destruct (valid r); split; intros; try reflexivity; discriminate.
  - intros Hinvalid e He. rewrite Hinvalid.
    apply in_split in He as (l1 & l2 & ->).
    match goal with
    | |- context [String.concat newline ?lines] =>
        replace lines
          with (("Environment Configuration Error:" :: ""
                   :: map (fun err => "   " ++ err)%string l1)
                ++ ("   " ++ e)%string
                   :: (map (fun err => "   " ++ err)%string l2
                       ++ [""; "Please create a .env file with:";
                           "VITE_SUPABASE_URL=https://your-project.supabase.co";
                           "VITE_SUPABASE_ANON_KEY=your-anon-key";
                           ""; "See .env.example for a template."]))
    end.
    2: { rewrite map_app. simpl. rewrite <- !app_assoc. reflexivity. }
    rewrite concat_around.
    + eexists _, _. rewrite (string_app_assoc "   " e). reflexivity.
    + discriminate.
    + destruct (map _ l2); discriminate.
Qed.

Lemma error_message_lists_every_error_witness :
  exists before after,
    getValidationErrorMessage (validateEnvironment insecure_env)
    = (before ++ newline ++ "   "
         ++ "VITE_SUPABASE_URL must start with https://" ++ newline
         ++ after)%string.
Proof.
  exact (proj2 (error_message_lists_every_error
                  (validateEnvironment insecure_env))
               eq_refl _ (or_intror (or_introl eq_refl))).
Defined.

(** The console lines of `forEach` over the warnings. *)
Lemma forEach_console_warn (xs : list string) h :
  forEach xs (fun warning => console_warn ("    " ++ warning)%string) h tt
  = (Returned tt, tt,
     map (fun warning => ConsoleWarn ("    " ++ warning)%string) xs).
Proof.
  revert h. induction xs as [|x xs IH]; intros h; [reflexivity |].
  simpl. unfold bind, console_warn, effect. simpl.
  rewrite IH. reflexivity.
Qed.

(** initializeEnvironment returns the config exactly when
    validateEnvironment accepts the environment.  Its interactions are then
    the call validateEnvironment makes to the logger (debug.warn with the
    warnings when there are some, debug.log otherwise) and, when there are
    warnings, one console.warn for the heading and one per warning, in
    order.  When the environment is not accepted it throws the Error
    'Environment validation failed. See console for details.'; its
    interactions are then the debug.error of validateEnvironment with the
    errors, one console.error carrying the error message and, in a DEV
    build only, the alert. *)
Theorem initializeEnvironment_outcome env h :
  let r := validateEnvironment env in
  if valid r then
    exists c,
      config r = Some c
      /\ initializeEnvironment env h tt
         = (Returned (Some c), tt,
            match warnings r with
            | [] => [DebugLog "Environment validation passed"]
            | ws => DebugWarn "Environment validation passed with warnings" ws
                    :: ConsoleWarn "Environment warnings:"
                    :: map (fun warning => ConsoleWarn ("    " ++ warning)%string) ws
            end)
  else
    initializeEnvironment env h tt
    = (Threw (ThrownError
                {| message := "Environment validation failed. See console for details." |}),
       tt,
       DebugError "Environment validation failed" (errors r)
       :: ConsoleError (getValidationErrorMessage r)
       :: (if DEV env then [Alert alert_text] else [])).
Proof.
  intros r. unfold initializeEnvironment, validateEnvironment_call. fold r.
  destruct (valid r) eqn:Hvalid; simpl.
  - assert (Hc : exists c, config r = Some c).
    { subst r. revert Hvalid. unfold validateEnvironment.
      destruct (truthy (VITE_SUPABASE_URL env));
        destruct (truthy (VITE_SUPABASE_ANON_KEY env));
        destruct (and_then (VITE_SUPABASE_URL env) _); simpl;
        intros; try discriminate; eauto. }
    destruct Hc as [c Hc]. exists c. split; [exact Hc |].
    destruct (warnings r) as [|x ws] eqn:Hw.
    + unfold bind, effect, ret. simpl. rewrite Hvalid, Hw, Hc. reflexivity.
    + unfold bind at 1 2. unfold effect at 1. unfold ret at 1. simpl.
      rewrite Hvalid, Hw. simpl.
      unfold bind, console_warn, effect. simpl.
      rewrite forEach_console_warn. simpl. rewrite app_nil_r, Hc.
      reflexivity.
  - unfold bind, console_error, alert, effect, throw, ret. simpl.
    rewrite Hvalid. simpl.
    destruct (DEV env); reflexivity.
Qed.

(** A development build started without the key. *)
Lemma initializeEnvironment_outcome_witness :
  initializeEnvironment dev_env_without_key [] tt
  = (Threw (ThrownError
              {| message := "Environment validation failed. See console for details." |}),
     tt,
     [DebugError "Environment validation failed"
                 ["VITE_SUPABASE_ANON_KEY is not set in environment variables"];
      ConsoleError (getValidationErrorMessage
                      (validateEnvironment dev_env_without_key));
      Alert alert_text]).
Proof.
  exact (initializeEnvironment_outcome dev_env_without_key []).
Defined.

End EnvironmentMore.

(** ** lib/storage.ts: further properties *)

Module StorageMore.
Import Storage.

Local Open Scope N_scope.

(** The sanitizer leaves a name as it is exactly when every code unit of
    the name is in the class [a-zA-Z0-9_.-]; sanitizing twice is
    sanitizing once. *)
Theorem sanitized_name_is_stable (s : jsstring) :
  (replace_outside_class s = s <-> Forall (fun c => in_class c = true) s)
  /\ replace_outside_class (replace_outside_class s) = replace_outside_class s.
Proof.
  assert (Hiff : forall l : jsstring,
             replace_outside_class l = l
             <-> Forall (fun c => in_class c = true) l).
  { induction l as [|c l IH]; simpl.
    - split; [constructor | reflexivity].
    - split.
      + intros [= Hc Hl]. constructor; [| apply IH; exact Hl].
        destruct (in_class c) eqn:Hin; [reflexivity |].
        subst c. discriminate.
      + intros Hall. inversion Hall as [|? ? Hc Hl]; subst.
        rewrite Hc. f_equal. apply IH. exact Hl. }
  split; [apply Hiff |].
  apply Hiff. induction s as [|c s IH]; simpl; constructor; [| exact IH].
  destruct (in_class c) eqn:Hin; [exact Hin | reflexivity].
Qed.

Lemma sanitized_name_is_stable_witness :
  replace_outside_class (lit "report-2024_v1.pdf") = lit "report-2024_v1.pdf".
Proof.
  apply (proj2 (proj1 (sanitized_name_is_stable (lit "report-2024_v1.pdf")))).
  repeat constructor.
Defined.

Lemma digits_without (x : N) (d : Decimal.uint) :
  (x < 48 \/ 57 < x) -> Forall (fun c => c <> x) (digits d).
Proof.
  intros Hx. induction d; simpl; constructor; auto; cbv beta; lia.
Qed.

Lemma Number_toString_without (x : N) (n : Z) :
  x <> 45 -> (x < 48 \/ 57 < x) -> Forall (fun c => c <> x) (Number_toString n).
Proof.
  intros Hminus Hx. destruct n as [|p|p].
  - change (Number_toString 0) with [48].
    constructor; [cbv beta; lia | constructor].
  - apply digits_without. exact Hx.
  - change (Number_toString (Z.neg p)) with (45 :: digits (Pos.to_uint p)).
    constructor; [congruence | apply digits_without; exact Hx].
Qed.

Lemma replace_outside_class_without (x : code_unit) (s : jsstring) :
  in_class x = false -> Forall (fun c => c <> x) (replace_outside_class s).
Proof.
  intros Hx. induction s as [|c s IH]; simpl; constructor; [| exact IH].
  destruct (in_class c) eqn:Hin; intros Heq; subst; [congruence | discriminate].
Qed.

(** What uploadCertificationAsset does, step by step. *)
Lemma upload_run w file certificationId h :
  let path := certificationId ++ lit "/" ++ Number_toString (now w h)
                ++ lit "_" ++ replace_outside_class (name file) in
  let opts := {| upsert := true; contentType := or_undefined (type file) |} in
  emitted (uploadCertificationAsset w file certificationId h tt)
  = DateNow :: Upload BUCKET path file opts
    :: match storage_upload w (h ++ [DateNow]) BUCKET path file opts with
       | Returned (UploadOk d) => [GetPublicUrl BUCKET (Storage.path d)]
       | _ => []
       end.
Proof.
  intros path opts. subst path opts.
  cbv beta iota zeta delta
    [uploadCertificationAsset bind Date_now upload getPublicUrl external ret
     emitted fst snd].
  destruct (storage_upload w _ _ _ _ _) as [[d|e]|err]; reflexivity.
Qed.

(** The file part of the path, what follows the certification id and the
    separating '/', never holds a '/': whatever the name of the file, the
    object lands directly in the folder of the certification. *)
Theorem file_part_has_no_separator w file certificationId h :
  exists file_part rest,
    emitted (uploadCertificationAsset w file certificationId h tt)
    = DateNow
      :: Upload BUCKET (certificationId ++ lit "/" ++ file_part) file
           {| upsert := true; contentType := or_undefined (type file) |}
      :: rest
    /\ Forall (fun c => c <> 47) file_part.
Proof.
  eexists _, _. split; [apply upload_run |].
  apply Forall_app. split.
  - apply Number_toString_without; [discriminate | lia].
  - constructor; [discriminate |].
    apply replace_outside_class_without. reflexivity.
Qed.

Lemma split_at_first (x : code_unit) (l1 l2 r1 r2 : jsstring) :
  Forall (fun c => c <> x) l1 ->
  Forall (fun c => c <> x) l2 ->
  l1 ++ x :: r1 = l2 ++ x :: r2 ->
  l1 = l2 /\ r1 = r2.
Proof.
  intros H1. revert l2. induction H1 as [|c l1 Hc H1 IH]; intros l2 H2 Heq.
  - destruct l2 as [|c l2]; simpl in Heq.
    + injection Heq as ->. auto.
    + injection Heq as <- _. inversion H2; contradiction.
  - destruct l2 as [|c2 l2]; simpl in Heq.
    + injection Heq as -> _. contradiction.
    + injection Heq as -> Heq. inversion H2; subst.
      destruct (IH l2) as [-> ->]; auto.
Qed.

Lemma digits_inj (d1 d2 : Decimal.uint) :
  digits d1 = digits d2 -> d1 = d2.
Proof.
  revert d2. induction d1; intros d2; destruct d2; simpl;
    try discriminate; try reflexivity;
    intros [= Heq]; f_equal; apply IHd1; exact Heq.
Qed.

Lemma Number_toString_inj (n m : Z) :
  Number_toString n = Number_toString m -> n = m.
Proof.
  assert (Hpos : forall p q, digits (Pos.to_uint p) = digits (Pos.to_uint q)
                             -> p = q).
  { intros p q Heq. apply digits_inj in Heq.
    assert (Hn : Pos.of_uint (Pos.to_uint p) = Pos.of_uint (Pos.to_uint q))
      by (rewrite Heq; reflexivity).
    rewrite !DecimalPos.Unsigned.of_to in Hn. congruence. }
  assert (Hzero : forall p, digits (Pos.to_uint p) <> lit "0").
  { intros p Heq. change (lit "0") with (digits (D0 Nil)) in Heq.
    apply digits_inj in Heq.
    assert (Hn : Pos.of_uint (Pos.to_uint p) = Pos.of_uint (D0 Nil))
      by (rewrite Heq; reflexivity).
    rewrite DecimalPos.Unsigned.of_to in Hn. discriminate. }
  assert (Hminus : forall p q, digits (Pos.to_uint p)
                               <> lit "-" ++ digits (Pos.to_uint q)).
  { intros p q Heq.
    assert (Hall := digits_without 45 (Pos.to_uint p) ltac:(lia)).
    rewrite Heq in Hall. inversion Hall; contradiction. }
  destruct n as [|p|p]; destruct m as [|q|q]; simpl; intros Heq;
    try reflexivity.
  - symmetry in Heq. apply Hzero in Heq. contradiction.
  - discriminate.
  - apply Hzero in Heq. contradiction.
  - f_equal. apply Hpos. exact Heq.
  - apply Hminus in Heq. contradiction.
  - discriminate.
  - symmetry in Heq. apply Hminus in Heq. contradiction.
  - injection Heq as Heq. f_equal. apply Hpos. exact Heq.
Qed.

(** Two uploads for one certification go to the same path only if the
    clock gave both the same time and the two file names sanitize to the
    same name: uploads at different milliseconds never overwrite each
    other. *)
Theorem same_path_same_time_and_name
    w1 w2 file1 file2 certificationId h1 h2 path opts1 opts2 :
  In (Upload BUCKET path file1 opts1)
     (emitted (uploadCertificationAsset w1 file1 certificationId h1 tt)) ->
  In (Upload BUCKET path file2 opts2)
     (emitted (uploadCertificationAsset w2 file2 certificationId h2 tt)) ->
  now w1 h1 = now w2 h2
  /\ replace_outside_class (name file1) = replace_outside_class (name file2).
Proof.
  assert (Hpath : forall w file h p opts,
             In (Upload BUCKET p file opts)
                (emitted (uploadCertificationAsset w file certificationId h tt)) ->
             p = certificationId ++ lit "/" ++ Number_toString (now w h)
                   ++ lit "_" ++ replace_outside_class (name file)).
  { intros w file h p opts. rewrite upload_run.
    intros [[=]|[[= <- _]|Hin]]; [reflexivity |].
    destruct (storage_upload w _ _ _ _ _) as [[d|e]|err];
      simpl in Hin; intuition discriminate. }
  intros Hin1 Hin2. apply Hpath in Hin1, Hin2. rewrite Hin1 in Hin2.
  apply app_inv_head in Hin2. injection Hin2 as Hin2.
  apply split_at_first in Hin2 as [Htime Hname].
  - split; [apply Number_toString_inj; exact Htime | exact Hname].
  - apply Number_toString_without; [discriminate | lia].
  - apply Number_toString_without; [discriminate | lia].
Qed.

(** The same photo sent twice within one millisecond. *)
Lemma same_path_same_time_and_name_witness :
  now (upload_world 1700000000000 stored) []
  = now (upload_world 1700000000000 connection_lost) [DateNow].
Proof.
  refine (proj1 (same_path_same_time_and_name
                   (upload_world 1700000000000 stored)
                   (upload_world 1700000000000 connection_lost)
                   photo photo (lit "cert-42") [] [DateNow]
                   (lit "cert-42/1700000000000_my_photo__1_.png")
                   {| upsert := true; contentType := Some (lit "image/png") |}
                   {| upsert := true; contentType := Some (lit "image/png") |}
                   _ _)).
  - right. left. reflexivity.
  - right. left. reflexivity.
Defined.

End StorageMore.

(** ** The useRecaptcha hook: further properties *)

Module RecaptchaMore.
Import Recaptcha.

(** With the script loaded but `window.grecaptcha` missing, executeRecaptcha
    throws the Error 'reCAPTCHA not available'; it makes no call and records
    no error in the hook's state. *)
Theorem executeRecaptcha_not_available w siteKey st action h s :
  loaded st = true ->
  grecaptcha_present w h = false ->
  executeRecaptcha (useRecaptcha w siteKey st) action h s
  = (Threw (ThrownError {| message := "reCAPTCHA not available" |}), s, []).
Proof.
  intros Hloaded Habsent. unfold useRecaptcha. simpl. rewrite Hloaded. simpl.
  unfold bind, window_grecaptcha. rewrite Habsent. reflexivity.
Qed.

Lemma executeRecaptcha_not_available_witness :
  executeRecaptcha
    (useRecaptcha {| grecaptcha_present := fun _ => false;
                     grecaptcha_execute := fun _ _ _ => Returned "token" |}
                  "site-key"
                  {| loaded := true; error := None; scriptLoadedRef := true |})
    "submit" [] first_render
  = (Threw (ThrownError {| message := "reCAPTCHA not available" |}),
     first_render, []).
Proof.
  exact (executeRecaptcha_not_available
           {| grecaptcha_present := fun _ => false;
              grecaptcha_execute := fun _ _ _ => Returned "token" |}
           "site-key"
           {| loaded := true; error := None; scriptLoadedRef := true |}
           "submit" [] first_render eq_refl eq_refl).
Defined.

(** With the script loaded and grecaptcha present, executeRecaptcha calls
    grecaptcha.execute once, with the site key of the hook and the given
    action.  It returns the token the call returns and leaves the state
    alone; when the call throws, it records an Error in the hook's state
    and throws that same Error: the thrown Error itself, or 'Failed to
    execute reCAPTCHA' for a thrown value that is no Error. *)
Theorem executeRecaptcha_when_ready w siteKey st action h s :
  loaded st = true ->
  grecaptcha_present w h = true ->
  executeRecaptcha (useRecaptcha w siteKey st) action h s
  = match grecaptcha_execute w h siteKey action with
    | Returned token => (Returned token, s, [Execute siteKey action])
    | Threw err =>
        let e := match err with
                 | ThrownError e => e
                 | ThrownOther => {| message := "Failed to execute reCAPTCHA" |}
                 end in
        (Threw (ThrownError e),
         {| loaded := loaded s; error := Some e;
            scriptLoadedRef := scriptLoadedRef s |},
         [Execute siteKey action; SetError e])
    end.
Proof.
  intros Hloaded Hpresent. unfold useRecaptcha. simpl. rewrite Hloaded. simpl.
  unfold bind, window_grecaptcha. rewrite Hpresent. simpl.
  unfold try_catch, bind, external, ret, setError, effect, throw. simpl.
  rewrite app_nil_r.
  destruct (grecaptcha_execute w h siteKey action) as [token|[e|]];
    reflexivity.
Qed.

Lemma executeRecaptcha_when_ready_witness :
  executeRecaptcha
    (useRecaptcha ready_world "site-key"
                  {| loaded := true; error := None; scriptLoadedRef := true |})
    "submit" [] first_render
  = (Returned "token", first_render, [Execute "site-key" "submit"]).
Proof.
  exact (executeRecaptcha_when_ready ready_world "site-key"
           {| loaded := true; error := None; scriptLoadedRef := true |}
           "submit" [] first_render eq_refl eq_refl).
Defined.

(** Whatever the state and the world, executeRecaptcha throws nothing but
    Error objects, and it calls grecaptcha.execute at most once. *)
Theorem executeRecaptcha_throws_errors_only w siteKey st action h s :
  (forall err,
      result (executeRecaptcha (useRecaptcha w siteKey st) action h s)
      = Threw err ->
      exists e, err = ThrownError e)
  /\ (emitted (executeRecaptcha (useRecaptcha w siteKey st) action h s) = []
      \/ exists rest,
           emitted (executeRecaptcha (useRecaptcha w siteKey st) action h s)
           = Execute siteKey action :: rest
           /\ forall k a, ~ In (Execute k a) rest).
Proof.
  unfold useRecaptcha. simpl.
  destruct (loaded st); simpl.
  2: { split; [intros err [= <-]; eauto | left; reflexivity]. }
  unfold bind, window_grecaptcha.
  destruct (grecaptcha_present w h); simpl.
  2: { split; [intros err [= <-]; eauto | left; reflexivity]. }
  unfold try_catch, bind, external, ret, setError, effect, throw, result,
    emitted. simpl. rewrite app_nil_r.
  destruct (grecaptcha_execute w h siteKey action) as [token|[e|]]; simpl;
    (split; [intros err [= <-]; eauto |]); right; eexists;
    (split; [reflexivity |]); simpl; intuition discriminate.
Qed.

(** A rejection with a plain string becomes an Error. *)
Lemma executeRecaptcha_throws_errors_only_witness :
  exists e, ThrownError {| message := "Failed to execute reCAPTCHA" |}
            = ThrownError e.
Proof.
  exact (proj1 (executeRecaptcha_throws_errors_only
                  {| grecaptcha_present := fun _ => true;
                     grecaptcha_execute := fun _ _ _ => Threw ThrownOther |}
                  "site-key"
                  {| loaded := true; error := None; scriptLoadedRef := true |}
                  "submit" [] first_render)
               _ eq_refl).
Defined.

End RecaptchaMore.

(** ** The effect of the hook *)

Module RecaptchaEffectFacts.
Import Recaptcha.
Import RecaptchaEffect.

(** With an empty site key, or with the placeholder
    'your_recaptcha_site_key_here', the effect only records the Error
    'reCAPTCHA site key not configured': it does not look at the document,
    adds no script, and leaves `loaded` and the ref as they are. *)
Theorem effect_without_site_key page siteKey h st :
  siteKey = "" \/ siteKey = placeholder ->
  useEffect_body page siteKey h st
  = (Returned NoCleanup,
     {| loaded := loaded st;
        error := Some {| message := "reCAPTCHA site key not configured" |};
        scriptLoadedRef := scriptLoadedRef st |},
     [SetErrorState {| message := "reCAPTCHA site key not configured" |}]).
Proof.
  intros [-> | ->]; unfold useEffect_body, bind, read_scriptLoadedRef,
    setError, effect, ret; reflexivity.
Qed.

Lemma effect_without_site_key_witness :
  useEffect_body blank_page "your_recaptcha_site_key_here" [] first_render
  = (Returned NoCleanup,
     {| loaded := false;
        error := Some {| message := "reCAPTCHA site key not configured" |};
        scriptLoadedRef := false |},
     [SetErrorState {| message := "reCAPTCHA site key not configured" |}]).
Proof.
  exact (effect_without_site_key blank_page "your_recaptcha_site_key_here"
           [] first_render (or_intror eq_refl)).
Defined.

(** The effect adds a script to the document exactly when the site key is
    configured, the ref does not say that the script is loaded, and the
    document holds no reCAPTCHA script yet.  It then adds one script, the
    reCAPTCHA script for the site key, async and deferred, after one query
    of the document; it returns the cleanup function and leaves the state
    as it is. *)
Theorem effect_adds_the_script_when_needed page siteKey h st :
  (exists script, In (AppendChild script)
                     (emitted (useEffect_body page siteKey h st)))
  <-> (siteKey <> "" /\ siteKey <> placeholder
       /\ scriptLoadedRef st = false
       /\ query_finds page h script_selector = false
       /\ useEffect_body page siteKey h st
          = (Returned Cleanup, st,
             [QuerySelector script_selector;
              AppendChild
                {| src := ("https://www.google.com/recaptcha/api.js?render="
                             ++ siteKey)%string;
                   async := true; defer := true |}])).
Proof.
  unfold useEffect_body, bind, read_scriptLoadedRef, querySelector,
    appendChild, setError, setLoaded, write_scriptLoadedRef, external,
    effect, ret, emitted. simpl. rewrite !app_nil_r.
  destruct (String.eqb_spec siteKey "") as [->|Hkey]; simpl.
  { split; [intros [script Hin]; simpl in Hin; intuition discriminate
           | intros [Hne _]; contradiction]. }
  destruct (String.eqb_spec siteKey placeholder) as [->|Hph]; simpl.
  { split; [intros [script Hin]; simpl in Hin; intuition discriminate
           | intros (_ & Hne & _); contradiction]. }
  destruct (scriptLoadedRef st) eqn:Href; simpl.
  { split; [intros [script Hin]; simpl in Hin; intuition discriminate
           | intros (_ & _ & [=] & _)]. }
  destruct (query_finds page h script_selector) eqn:Hq; simpl.
  { split; [intros [script Hin]; simpl in Hin; intuition discriminate
           | intros (_ & _ & _ & [=] & _)]. }
  split; [intros _; repeat split; auto |].
  intros _. eexists. simpl. right. left. reflexivity.
Qed.

Lemma effect_adds_the_script_when_needed_witness :
  useEffect_body blank_page "site-key" [] first_render
  = (Returned Cleanup, first_render,
     [QuerySelector script_selector;
      AppendChild {| src := "https://www.google.com/recaptcha/api.js?render=site-key";
                     async := true; defer := true |}]).
Proof.
  refine (proj2 (proj2 (proj2 (proj2
            (proj1 (effect_adds_the_script_when_needed
                      blank_page "site-key" [] first_render) _))))).
  eexists. right. left. reflexivity.
Defined.

(** When the document already holds a reCAPTCHA script, the effect marks
    the hook as loaded without adding a script.  A second run of the
    effect then does nothing at all, and the executeRecaptcha of the next
    render, with grecaptcha present, reaches grecaptcha.execute. *)
Theorem effect_finds_script_then_execute page siteKey h st :
  siteKey <> "" -> siteKey <> placeholder ->
  scriptLoadedRef st = false ->
  query_finds page h script_selector = true ->
  let st' := {| loaded := true; error := error st; scriptLoadedRef := true |} in
  useEffect_body page siteKey h st
  = (Returned NoCleanup, st',
     [QuerySelector script_selector; SetLoaded true])
  /\ (forall h', useEffect_body page siteKey h' st'
                 = (Returned NoCleanup, st', []))
  /\ (forall w action hx,
         grecaptcha_present w hx = true ->
         exists rest,
           emitted (executeRecaptcha (useRecaptcha w siteKey st') action hx st')
           = Recaptcha.Execute siteKey action :: rest).
Proof.
  intros Hkey Hph Href Hq st'.
  apply String.eqb_neq in Hkey, Hph.
  repeat split.
  - unfold useEffect_body, bind, read_scriptLoadedRef, querySelector,
      setLoaded, write_scriptLoadedRef, external, effect, ret. simpl.
    rewrite Hkey, Hph, Href. simpl. rewrite !app_nil_r, Hq. reflexivity.
  - intros h'. unfold useEffect_body, bind, read_scriptLoadedRef, ret. simpl.
    rewrite Hkey, Hph. reflexivity.
  - intros w action hx Hpresent.
    unfold useRecaptcha, emitted. simpl.
    unfold bind, window_grecaptcha. rewrite Hpresent. simpl.
    unfold try_catch, bind, external, ret, Recaptcha.setError, effect, throw.
    simpl. rewrite app_nil_r.
    destruct (grecaptcha_execute w hx siteKey action) as [token|err];
      simpl; eauto.
Qed.

Lemma effect_finds_script_then_execute_witness :
  useEffect_body page_with_script "site-key" [] first_render
  = (Returned NoCleanup,
     {| loaded := true; error := None; scriptLoadedRef := true |},
     [QuerySelector script_selector; SetLoaded true]).
Proof.
  exact (proj1 (effect_finds_script_then_execute
                  page_with_script "site-key" [] first_render
                  ltac:(discriminate) ltac:(discriminate) eq_refl eq_refl)).
Defined.

(** What follows the loading of the added script.  When the script has
    loaded and `grecaptcha.ready` runs its callback, the hook is marked as
    loaded, and the executeRecaptcha of the next render, with grecaptcha
    present, reaches grecaptcha.execute.  When the script fails to load,
    the hook reports the Error 'Failed to load reCAPTCHA script' and, not
    being loaded, its executeRecaptcha keeps throwing 'reCAPTCHA not loaded
    yet' without calling anything. *)
Theorem script_load_then_execute page siteKey h st :
  (ready_runs_callback page h = true ->
   let st' := final (script_onload page h st) in
   loaded st' = true
   /\ scriptLoadedRef st' = true
   /\ error st' = error st
   /\ forall w action hx,
        grecaptcha_present w hx = true ->
        exists rest,
          emitted (executeRecaptcha (useRecaptcha w siteKey st') action hx st')
          = Recaptcha.Execute siteKey action :: rest)
  /\ (loaded st = false ->
      let st' := final (script_onerror h st) in
      ret_error (useRecaptcha Recaptcha.ready_world siteKey st')
      = Some {| message := "Failed to load reCAPTCHA script" |}
      /\ forall w action hx,
           executeRecaptcha (useRecaptcha w siteKey st') action hx st'
           = (Threw (ThrownError {| message := "reCAPTCHA not loaded yet" |}),
              st', [])).
Proof.
  split.
  - intros Hready st'. subst st'.
    unfold script_onload, ready_callback, bind, external, setLoaded,
      write_scriptLoadedRef, effect, ret, final. simpl.
    rewrite Hready. simpl. repeat split.
    intros w action hx Hpresent.
    unfold useRecaptcha, emitted. simpl.
    unfold bind, window_grecaptcha. rewrite Hpresent. simpl.
    unfold try_catch, bind, external, ret, Recaptcha.setError, effect, throw.
    simpl. rewrite app_nil_r.
    destruct (grecaptcha_execute w hx siteKey action) as [token|err];
      simpl; eauto.
  - intros Hloaded st'. subst st'.
    unfold script_onerror, setError, effect, final. simpl.
    split; [reflexivity |].
    intros w action hx. unfold useRecaptcha. simpl. rewrite Hloaded.
    reflexivity.
Qed.

Lemma script_load_then_execute_witness :
  loaded (final (script_onload blank_page [] first_render)) = true
  /\ executeRecaptcha
       (useRecaptcha Recaptcha.ready_world "site-key"
                     (final (script_onerror [] first_render)))
       "submit" [] (final (script_onerror [] first_render))
     = (Threw (ThrownError {| message := "reCAPTCHA not loaded yet" |}),
        final (script_onerror [] first_render), []).
Proof.
  destruct (script_load_then_execute blank_page "site-key" [] first_render)
    as [Hload Hfail].
  split.
  - exact (proj1 (Hload eq_refl)).
  - exact (proj2 (Hfail eq_refl) Recaptcha.ready_world "submit" []).
Defined.

End RecaptchaEffectFacts.
